(** * reviewSense: the review crawler of [main.py]

    A shallow embedding of [AmazonReviewScraper] and of the parts of its
    collaborators that decide its control flow: Python's [str] methods,
    [urllib.parse.urljoin], the BeautifulSoup tree queries, the HTTP
    session and the file the reviews are saved to.

    Conventions.
    - A Python [str] is a [string]; a character is a code point below 256.
    - A Python [int] is a [Z].
    - A call that may raise returns a [res]: [Ret v] or [Raise e].
    - [None] is [None]; the truth value of an object follows Python
      ([""], [[]] and [None] are false, a tag is true).
    - The session, the HTML parser, the random draws and the files are
      parameters or explicit state; a request answers (with a response
      or an exception). Log calls change nothing that is modelled and
      are left out; [print], and a write to a file that was opened, are
      taken to succeed. *)

From Stdlib Require Import String Ascii List ZArith Lia Bool DecimalString.
From Stdlib Require QArith.
From stdpp Require Import gmap strings list.

Local Open Scope string_scope.
Local Open Scope Z_scope.

(** ** Exceptions *)

Inductive exn :=
| KeyError (key : string)
| ValueError (msg : string)
| OverflowError (msg : string)
| OSError.

Inductive res (A : Type) :=
| Ret (a : A)
| Raise (e : exn).
Arguments Ret {A} a.
Arguments Raise {A} e.

(** ** Python strings *)

Module PyStr.

Definition code (c : ascii) : N := N_of_ascii c.

(** [str.isspace] on one character, code points below 256. *)
Definition isspace (c : ascii) : bool :=
  let n := code c in
  ((9 <=? n) && (n <=? 13) || (28 <=? n) && (n <=? 32)
   || (n =? 133) || (n =? 160))%N.

Definition truthy (s : string) : bool :=
  match s with
  | EmptyString => false
  | String _ _ => true
  end.

(** [s.lstrip(chars)], with [chars] given as a predicate. *)
Fixpoint lstrip_by (p : ascii -> bool) (s : string) : string :=
  match s with
  | EmptyString => EmptyString
  | String c r => if p c then lstrip_by p r else s
  end.

Fixpoint rstrip_by (p : ascii -> bool) (s : string) : string :=
  match s with
  | EmptyString => EmptyString
  | String c r =>
      match rstrip_by p r with
      | EmptyString => if p c then EmptyString else String c EmptyString
      | r' => String c r'
      end
  end.

(** [s.strip()] *)
Definition strip (s : string) : string :=
  rstrip_by isspace (lstrip_by isspace s).

(** [s.startswith(p)] *)
Fixpoint startswith (p s : string) : bool :=
  match p, s with
  | EmptyString, _ => true
  | String a p', String b s' => Ascii.eqb a b && startswith p' s'
  | String _ _, EmptyString => false
  end.

(** [sub in s] *)
Fixpoint contains (sub s : string) : bool :=
  startswith sub s ||
  match s with
  | EmptyString => false
  | String _ r => contains sub r
  end.

(** [c in s] for one character *)
Fixpoint has_char (c : ascii) (s : string) : bool :=
  match s with
  | EmptyString => false
  | String a r => Ascii.eqb a c || has_char c r
  end.

(** [s.find(c)] for one character: the part before the first [c] and
    the part after it, when there is one ([s.find(c) = len] of the
    first part). *)
Fixpoint partition (c : ascii) (s : string) : option (string * string) :=
  match s with
  | EmptyString => None
  | String a r =>
      if Ascii.eqb a c then Some (EmptyString, r)
      else match partition c r with
           | Some (h, t) => Some (String a h, t)
           | None => None
           end
  end.

(** [s.split(c)] *)
Fixpoint split (c : ascii) (s : string) : list string :=
  match s with
  | EmptyString => [EmptyString]
  | String a r =>
      if Ascii.eqb a c then EmptyString :: split c r
      else match split c r with
           | h :: t => String a h :: t
           | [] => [String a EmptyString]
           end
  end.

(** [sep.join(l)] *)
Fixpoint join (sep : string) (l : list string) : string :=
  match l with
  | [] => EmptyString
  | [x] => x
  | x :: r => x ++ sep ++ join sep r
  end.

(** [s.replace(c, "")] for one character *)
Fixpoint remove_char (c : ascii) (s : string) : string :=
  match s with
  | EmptyString => EmptyString
  | String a r =>
      if Ascii.eqb a c then remove_char c r else String a (remove_char c r)
  end.

Definition lower_char (c : ascii) : ascii :=
  let n := code c in
  if ((65 <=? n) && (n <=? 90))%N then ascii_of_N (n + 32) else c.

(** [s.lower()] on ASCII text *)
Fixpoint lower (s : string) : string :=
  match s with
  | EmptyString => EmptyString
  | String c r => String (lower_char c) (lower r)
  end.

(** [s * n] *)
Fixpoint repeat (s : string) (n : nat) : string :=
  match n with
  | O => EmptyString
  | S k => s ++ repeat s k
  end.

(** [re.findall(r"\S+", s)]: the maximal runs of non-space characters. *)
Fixpoint words_aux (cur : string) (s : string) : list string :=
  match s with
  | EmptyString => if truthy cur then [cur] else []
  | String c r =>
      if isspace c
      then (if truthy cur then [cur] else []) ++ words_aux EmptyString r
      else words_aux (cur ++ String c EmptyString) r
  end.

Definition words (s : string) : list string := words_aux EmptyString s.

(** [s[:-1]] *)
Fixpoint drop_last (s : string) : string :=
  match s with
  | EmptyString => EmptyString
  | String c EmptyString => EmptyString
  | String c r => String c (drop_last r)
  end.

(** [s.rpartition(c)] when [c] occurs: the parts around the last [c]. *)
Fixpoint rpartition (c : ascii) (s : string) : option (string * string) :=
  match s with
  | EmptyString => None
  | String a r =>
      match rpartition c r with
      | Some (h, t) => Some (String a h, t)
      | None => if Ascii.eqb a c then Some (EmptyString, r) else None
      end
  end.

(** The longest prefix of [s] without a character of [p], and the rest. *)
Fixpoint break (p : ascii -> bool) (s : string) : string * string :=
  match s with
  | EmptyString => (EmptyString, EmptyString)
  | String a r =>
      if p a then (EmptyString, s)
      else let (h, t) := break p r in (String a h, t)
  end.

Fixpoint forallb (p : ascii -> bool) (s : string) : bool :=
  match s with
  | EmptyString => true
  | String a r => p a && forallb p r
  end.

(** [str(i)] for an int *)
Definition of_int (i : Z) : string := NilZero.string_of_int (Z.to_int i).

End PyStr.

(** ** [urllib.parse] (CPython 3.11): [urljoin] and what it calls *)

Module Url.
Import PyStr.

Definition uses_relative : list string :=
  [""; "ftp"; "http"; "gopher"; "nntp"; "imap";
   "wais"; "file"; "https"; "shttp"; "mms";
   "prospero"; "rtsp"; "rtspu"; "sftp";
   "svn"; "svn+ssh"; "ws"; "wss"].

Definition uses_netloc : list string :=
  [""; "ftp"; "http"; "gopher"; "nntp"; "telnet";
   "imap"; "wais"; "file"; "mms"; "https"; "shttp";
   "snews"; "prospero"; "rtsp"; "rtspu"; "rsync";
   "svn"; "svn+ssh"; "sftp"; "nfs"; "git"; "git+ssh";
   "ws"; "wss"].

Definition uses_params : list string :=
  [""; "ftp"; "hdl"; "prospero"; "http"; "imap";
   "https"; "shttp"; "rtsp"; "rtspu"; "sip"; "sips";
   "mms"; "sftp"; "tel"].

Definition member (s : string) (l : list string) : bool :=
  existsb (String.eqb s) l.

Definition is_lower (c : ascii) : bool :=
  let n := code c in ((97 <=? n) && (n <=? 122))%N.
Definition is_upper (c : ascii) : bool :=
  let n := code c in ((65 <=? n) && (n <=? 90))%N.
Definition is_digit (c : ascii) : bool :=
  let n := code c in ((48 <=? n) && (n <=? 57))%N.

(** [c.isascii() and c.isalpha()] *)
Definition isascii_alpha (c : ascii) : bool := is_lower c || is_upper c.

(** [c in scheme_chars] *)
Definition scheme_char (c : ascii) : bool :=
  is_lower c || is_upper c || is_digit c
  || Ascii.eqb c "+" || Ascii.eqb c "-" || Ascii.eqb c ".".

(** [c in _WHATWG_C0_CONTROL_OR_SPACE] *)
Definition c0_control_or_space (c : ascii) : bool := (code c <=? 32)%N.

Definition isascii (s : string) : bool :=
  PyStr.forallb (fun c => (code c <? 128)%N) s.

Definition TAB : ascii := "009".
Definition CR : ascii := "013".
Definition LF : ascii := "010".

(** [for b in _UNSAFE_URL_BYTES_TO_REMOVE: s = s.replace(b, "")] *)
Definition remove_unsafe (s : string) : string :=
  remove_char LF (remove_char CR (remove_char TAB s)).

(** What [urlsplit] does to [url] before it looks at it. *)
Definition clean_url (url : string) : string :=
  remove_unsafe (lstrip_by c0_control_or_space url).

Definition clean_scheme (scheme : string) : string :=
  remove_unsafe
    (rstrip_by c0_control_or_space (lstrip_by c0_control_or_space scheme)).

(** The scheme of [url], lowered, and what follows its colon: the
    [i = url.find(':')] test and the [for ... else] of [urlsplit]. *)
Definition split_scheme (url : string) : option (string * string) :=
  match partition ":" url with
  | Some (String c0 _ as pre, rest) =>
      if isascii_alpha c0 && PyStr.forallb scheme_char pre
      then Some (lower pre, rest)
      else None
  | _ => None
  end.

(** [_splitnetloc(url, 2)] on a [url] that starts with two slashes *)
Definition _splitnetloc2 (url : string) : string * string :=
  match url with
  | String _ (String _ r) =>
      break (fun c => Ascii.eqb c "/" || Ascii.eqb c "?" || Ascii.eqb c "#") r
  | _ => (EmptyString, EmptyString)
  end.

(** [s.split(c, 1)] when [c in s] *)
Definition split1 (c : ascii) (s : string) : string * string :=
  match partition c s with
  | Some p => p
  | None => (s, EmptyString)
  end.

Record SplitResult := mkSplit {
  s_scheme : string; s_netloc : string; s_path : string;
  s_query : string; s_fragment : string }.

Record ParseResult := mkParse {
  scheme : string; netloc : string; path : string;
  params : string; query : string; fragment : string }.

Section Netloc_checks.

(** The two checks of a netloc that need the tables of [ipaddress]
    and [unicodedata]: [true] when the check passes, [false] when it
    raises [ValueError].
    - [_check_bracketed_netloc] on a netloc with both brackets;
    - the NFKC test of [_checknetloc] on a netloc that is not ASCII. *)
Variable _check_bracketed_netloc : string -> bool.
Variable nfkc_check : string -> bool.

Definition _checknetloc (netloc : string) : bool :=
  if negb (truthy netloc) || isascii netloc then true
  else nfkc_check netloc.

Definition urlsplit (url scheme : string) : res SplitResult :=
  let url := clean_url url in
  let scheme := clean_scheme scheme in
  let '(scheme, url) :=
    match split_scheme url with
    | Some (s, rest) => (s, rest)
    | None => (scheme, url)
    end in
  let after_netloc :=
    if startswith "//" url then
      let '(netloc, rest) := _splitnetloc2 url in
      if has_char "[" netloc && negb (has_char "]" netloc)
         || has_char "]" netloc && negb (has_char "[" netloc)
      then Raise (ValueError "Invalid IPv6 URL")
      else if has_char "[" netloc && has_char "]" netloc
              && negb (_check_bracketed_netloc netloc)
      then Raise (ValueError "Invalid IPv6 URL")
      else Ret (netloc, rest)
    else Ret (EmptyString, url) in
  match after_netloc with
  | Raise e => Raise e
  | Ret (netloc, url) =>
      let '(url, fragment) :=
        if has_char "#" url then split1 "#" url else (url, EmptyString) in
      let '(url, query) :=
        if has_char "?" url then split1 "?" url else (url, EmptyString) in
      if _checknetloc netloc
      then Ret (mkSplit scheme netloc url query fragment)
      else Raise (ValueError "netloc contains invalid characters under NFKC normalization")
  end.

Definition _splitparams (url : string) : string * string :=
  if has_char "/" url then
    match rpartition "/" url with
    | Some (h, t) =>
        match partition ";" t with
        | Some (a, b) => (h ++ "/" ++ a, b)
        | None => (url, EmptyString)
        end
    | None => (url, EmptyString)
    end
  else
    match partition ";" url with
    | Some (a, b) => (a, b)
    | None => (drop_last url, url)
    end.

Definition urlparse (url scheme : string) : res ParseResult :=
  match urlsplit url scheme with
  | Raise e => Raise e
  | Ret r =>
      let '(url, params) :=
        if member (s_scheme r) uses_params && has_char ";" (s_path r)
        then _splitparams (s_path r)
        else (s_path r, EmptyString) in
      Ret (mkParse (s_scheme r) (s_netloc r) url params
                   (s_query r) (s_fragment r))
  end.

Definition urlunsplit (scheme netloc url query fragment : string) : string :=
  let url :=
    if truthy netloc
       || truthy scheme && member scheme uses_netloc
          && negb (startswith "//" url)
    then
      let url :=
        if truthy url && negb (startswith "/" url) then "/" ++ url else url in
      "//" ++ netloc ++ url
    else url in
  let url := if truthy scheme then scheme ++ ":" ++ url else url in
  let url := if truthy query then url ++ "?" ++ query else url in
  let url := if truthy fragment then url ++ "#" ++ fragment else url in
  url.

Definition urlunparse (scheme netloc url params query fragment : string)
  : string :=
  let url := if truthy params then url ++ ";" ++ params else url in
  urlunsplit scheme netloc url query fragment.

(** [segments[1:-1] = filter(None, segments[1:-1])] *)
Definition filter_middle (segments : list string) : list string :=
  match segments with
  | first :: (_ :: _) as rest =>
      (first :: List.filter truthy (removelast rest) ++ [List.last rest EmptyString])%list
  | _ => segments
  end.

(** The loop over [segments] that builds [resolved_path]. *)
Fixpoint resolve (segments resolved_path : list string) : list string :=
  match segments with
  | [] => resolved_path
  | seg :: rest =>
      if String.eqb seg ".." then resolve rest (removelast resolved_path)
      else if String.eqb seg "." then resolve rest resolved_path
      else resolve rest (resolved_path ++ [seg])%list
  end.

Definition urljoin (base url : string) : res string :=
  if negb (truthy base) then Ret url
  else if negb (truthy url) then Ret base
  else
    match urlparse base EmptyString with
    | Raise e => Raise e
    | Ret b =>
    match urlparse url (scheme b) with
    | Raise e => Raise e
    | Ret u =>
      if negb (String.eqb (scheme u) (scheme b))
         || negb (member (scheme u) uses_relative)
      then Ret url
      else if member (scheme u) uses_netloc && truthy (netloc u)
      then Ret (urlunparse (scheme u) (netloc u) (path u)
                           (params u) (query u) (fragment u))
      else
        let netloc :=
          if member (scheme u) uses_netloc then netloc b else netloc u in
        if negb (truthy (path u)) && negb (truthy (params u))
        then
          let query := if negb (truthy (query u)) then query b else query u in
          Ret (urlunparse (scheme u) netloc (path b) (params b)
                          query (fragment u))
        else
          let base_parts := split "/" (path b) in
          let base_parts :=
            if negb (String.eqb (List.last base_parts EmptyString) EmptyString)
            then removelast base_parts else base_parts in
          let segments :=
            if startswith "/" (path u) then split "/" (path u)
            else filter_middle (base_parts ++ split "/" (path u))%list in
          let resolved_path := resolve segments [] in
          let resolved_path :=
            if member (List.last segments EmptyString) ["."; ".."]
            then (resolved_path ++ [EmptyString])%list else resolved_path in
          let joined := join "/" resolved_path in
          Ret (urlunparse (scheme u) netloc
                          (if truthy joined then joined else "/")
                          (params u) (query u) (fragment u))
    end
    end.

(** A locator is absolute when it has a scheme of its own, as [urlsplit]
    finds it (past the leading control characters and spaces, and the
    tabs and line ends, that [urlsplit] drops); a relative reference has
    none. *)
Definition is_absolute (url : string) : bool :=
  match split_scheme (clean_url url) with
  | Some _ => true
  | None => false
  end.

End Netloc_checks.

End Url.

(** ** BeautifulSoup trees and their queries *)

Module Soup.
Import PyStr.

(** A parsed document. A [Tag] has a name, its attributes as the
    markup gives them, and its children in document order. Strings are
    [NavigableString]s, or of a class [get_text] leaves out
    ([Comment], [Script], [Stylesheet], ...): [OtherString]. *)
#[warnings="-register-all"]
Inductive node :=
| Tag (name : string) (attrs : gmap string string) (contents : list node)
| NavigableString (s : string)
| OtherString (s : string).

(** [tag.descendants]: every node below the tag, in document order. *)
Fixpoint descendants (n : node) : list node :=
  match n with
  | Tag _ _ contents => flat_map (fun c => c :: descendants c) contents
  | _ => []
  end.

(** Attributes whose value the tree builder keeps as a list of
    whitespace-separated words, on every tag. *)
Definition cdata_list_attribute (attr : string) : bool :=
  existsb (String.eqb attr) ["class"; "accesskey"; "dropzone"].

(** [SoupStrainer._matches] of an attribute's value against a string. *)
Definition attr_matches (attr : string) (value : option string)
                        (match_against : string) : bool :=
  match value with
  | None => negb (truthy match_against)
  | Some v =>
      if cdata_list_attribute attr then
        let items := words v in
        existsb (fun item => String.eqb item match_against) items
        || String.eqb (join " " items) match_against
      else String.eqb v match_against
  end.

(** [SoupStrainer.search_tag] for a tag name and a dict of attributes. *)
Definition search_tag (name : string) (attrs : list (string * string))
                      (n : node) : bool :=
  match n with
  | Tag nm tag_attrs _ =>
      String.eqb nm name
      && List.forallb
           (fun kv => attr_matches (fst kv) (tag_attrs !! fst kv) (snd kv))
           attrs
  | _ => false
  end.

(** [tag.find_all(name, attrs)] *)
Definition find_all (n : node) (name : string)
                    (attrs : list (string * string)) : list node :=
  List.filter (search_tag name attrs) (descendants n).

(** [tag.find(name, attrs)] *)
Definition find (n : node) (name : string)
                (attrs : list (string * string)) : option node :=
  List.head (find_all n name attrs).

Definition navigable (n : node) : string :=
  match n with
  | NavigableString s => s
  | _ => EmptyString
  end.

(** [element.text] *)
Definition text (n : node) : string :=
  match n with
  | Tag _ _ _ => String.concat EmptyString (List.map navigable (descendants n))
  | NavigableString s => s
  | OtherString s => s
  end.

(** [tag.get(key)] *)
Definition get (n : node) (key : string) : option string :=
  match n with
  | Tag _ tag_attrs _ => tag_attrs !! key
  | _ => None
  end.

(** [tag[key]] *)
Definition getitem (n : node) (key : string) : res string :=
  match get n key with
  | Some v => Ret v
  | None => Raise (KeyError key)
  end.

End Soup.

(** ** The crawler *)

Module Scraper.
Import PyStr.
Export Soup.

Record AmazonReviewScraper := mkScraper {
  product_id : string;
  base_url : string;
  max_pages : Z;
  delay_range : Z * Z;
  reviews : list string }.

Definition __init__ (product_id : string) (max_pages : Z)
                    (delay_range : Z * Z) : AmazonReviewScraper :=
  {| product_id := "B09G9FPHY6";
     base_url := "https://www.amazon.com/product-reviews/" ++ product_id;
     max_pages := max_pages;
     delay_range := delay_range;
     reviews := [] |}.

(** *** [extract_reviews_from_page] *)

Definition selectors : list (string * list (string * string)) :=
  [("div", [("data-hook", "review-collapsed")]);
   ("span", [("data-hook", "review-body")]);
   ("span", [("class", "a-size-base review-text")])].

(** The text taken from one matched element. *)
Definition element_text (tag : string) (element : node) : string :=
  if String.eqb tag "div" then
    match find element "span" [] with
    | Some span => strip (text span)
    | None => EmptyString
    end
  else strip (text element).

(** [for element in review_elements: ...] *)
Fixpoint collect (tag : string) (review_elements : list node)
                 (page_reviews : list string) : list string :=
  match review_elements with
  | [] => page_reviews
  | element :: rest =>
      let text := element_text tag element in
      collect tag rest
        (if truthy text then (page_reviews ++ [text])%list else page_reviews)
  end.

(** [for tag, attrs in selectors: ...], with its [break]. *)
Fixpoint try_selectors (sels : list (string * list (string * string)))
                       (soup : node) (page_reviews : list string)
  : list string :=
  match sels with
  | [] => page_reviews
  | (tag, attrs) :: rest =>
      match find_all soup tag attrs with
      | [] => try_selectors rest soup page_reviews
      | review_elements => collect tag review_elements page_reviews
      end
  end.

Definition extract_reviews_from_page (soup : option node) : list string :=
  match soup with
  | None => []
  | Some soup => try_selectors selectors soup []
  end.

(** *** The outside world

    - [session_get n url]: what the [n]-th call (from 0) of
      [self.session.get] answers for [url]: a response with its status
      and body, or an exception of the transport.
    - [html_parser body]: [BeautifulSoup(body, "html.parser")].
    - the two netloc checks [urljoin] relies on.
    - [uniform n range]: what [random.uniform( *range)] gives in the
      [_random_delay] that follows the [n]-th request (from 1): a
      float, as the rational it is, or the exception it raises (its
      arithmetic overflows on a range too wide for a float). *)

Inductive http_result :=
| Response (status_code : Z) (text : string)
| RequestException.

(** What the crawl does to the world, in order: a request, or a
    sleep of [_random_delay] that [time.sleep] went through with. *)
Inductive event :=
| Get (url : string)
| Sleep.

Definition is_get (e : event) : bool :=
  match e with
  | Get _ => true
  | Sleep => false
  end.

Definition fetch_count (trace : list event) : nat :=
  length (List.filter is_get trace).

Definition fetched (trace : list event) : list string :=
  flat_map (fun e => match e with Get u => [u] | Sleep => [] end) trace.

(** The state of [scrape]'s loop: the object, the two locals and the
    events so far. *)
Record state := mkState {
  self : AmazonReviewScraper;
  current_url : string;
  page_num : Z;
  trace : list event }.

(** The pages a run of [scrape] requested, in order. *)
Definition pages_fetched {A} (out : option (A * state)) : option (list string) :=
  option_map (fun o => fetched (trace (snd o))) out.

Inductive control :=
| Next (st : state)
| Break (st : state)
| Throw (e : exn) (st : state).

(** What one iteration leaves behind when it stops the loop. *)
Definition stops_from (st st' : state) : Prop :=
  max_pages (self st') = max_pages (self st)
  /\ current_url st' = current_url st
  /\ page_num st' = page_num st
  /\ trace st' = (trace st ++ [Get (current_url st)])%list
  /\ reviews (self st) `prefix_of` reviews (self st').

(** What one iteration leaves behind when it raises. *)
Definition raises_from (st st' : state) : Prop :=
  max_pages (self st') = max_pages (self st)
  /\ trace st' = (trace st ++ [Get (current_url st)])%list
  /\ reviews (self st) `prefix_of` reviews (self st').

(** What one iteration leaves behind when it goes on. *)
Definition advances_from (st st' : state) : Prop :=
  max_pages (self st') = max_pages (self st)
  /\ page_num st' = page_num st + 1
  /\ trace st' = (trace st ++ [Get (current_url st); Sleep])%list
  /\ reviews (self st) `prefix_of` reviews (self st').

(** An answer of the transport that gives no page: an exception, or a
    status other than 200 (429 and 503 among them). *)
Definition absence (r : http_result) : Prop :=
  match r with
  | Response status_code _ => status_code <> 200
  | RequestException => True
  end.

Definition ROOT : string := "https://www.amazon.com".

(** [time.sleep(secs)]: the length is turned into a signed 64-bit
    count of nanoseconds, with [OverflowError] when it does not fit
    (beyond some 292 years, either way), and then has to be
    non-negative. *)
Definition time_sleep (secs : QArith_base.Q) : res unit :=
  let ns := QArith_base.Qmult secs (QArith_base.inject_Z (10 ^ 9)) in
  if QArith_base.Qle_bool (QArith_base.inject_Z (- 2 ^ 63)) ns
     && QArith_base.Qle_bool ns (QArith_base.inject_Z (2 ^ 63 - 1))
  then
    if QArith_base.Qle_bool (QArith_base.inject_Z 0) secs then Ret tt
    else Raise (ValueError "sleep length must be non-negative")
  else Raise (OverflowError "timestamp too large to convert to C _PyTime_t").

(** The wait after the [n]-th request goes through: the draw gives a
    length, and [time.sleep] takes it. *)
Definition waits (uniform : nat -> Z * Z -> res QArith_base.Q)
                 (n : nat) (range : Z * Z) : bool :=
  match uniform n range with
  | Ret delay =>
      match time_sleep delay with
      | Ret _ => true
      | Raise _ => false
      end
  | Raise _ => false
  end.

Section World.

Variable session_get : nat -> string -> http_result.
Variable html_parser : string -> res node.
Variable _check_bracketed_netloc : string -> bool.
Variable nfkc_check : string -> bool.
Variable uniform : nat -> Z * Z -> res QArith_base.Q.

Definition urljoin : string -> string -> res string :=
  Url.urljoin _check_bracketed_netloc nfkc_check.

(** *** [_fetch_page] *)

Definition _fetch_page (n : nat) (url : string) : option node :=
  match session_get n url with
  | Response status_code text =>
      if status_code =? 200 then
        match html_parser text with
        | Ret soup => Some soup
        | Raise _ => None
        end
      else if (status_code =? 503) || (status_code =? 429) then None
      else None
  | RequestException => None
  end.

(** *** [find_next_page_url] *)

(** [for link in next_links: ...] of method 2 *)
Fixpoint scan_links (next_links : list node) : res (option string) :=
  match next_links with
  | [] => Ret None
  | link :: rest =>
      if truthy (text link) && contains "Next" (text link) then
        match getitem link "href" with
        | Raise e => Raise e
        | Ret href =>
            match urljoin ROOT href with
            | Raise e => Raise e
            | Ret url => Ret (Some url)
            end
        end
      else scan_links rest
  end.

Definition method2 (soup : node) : res (option string) :=
  match find soup "div" [("id", "cm_cr-pagination_bar")] with
  | Some pagination =>
      scan_links (find_all pagination "a" [("class", "a-link-normal")])
  | None => Ret None
  end.

Definition find_next_page_url (soup : option node) : res (option string) :=
  match soup with
  | None => Ret None
  | Some soup =>
      match find soup "li" [("class", "a-last")] with
      | Some next_page_li =>
          match find next_page_li "a" [] with
          | Some next_page_a =>
              match get next_page_a "href" with
              | Some href =>
                  if truthy href then
                    match urljoin ROOT href with
                    | Raise e => Raise e
                    | Ret url => Ret (Some url)
                    end
                  else method2 soup
              | None => method2 soup
              end
          | None => method2 soup
          end
      | None => method2 soup
      end
  end.

(** *** [scrape] *)

Definition extend (self : AmazonReviewScraper) (page_reviews : list string)
  : AmazonReviewScraper :=
  {| product_id := product_id self;
     base_url := base_url self;
     max_pages := max_pages self;
     delay_range := delay_range self;
     reviews := (reviews self ++ page_reviews)%list |}.

(** [_random_delay]: the draw from [delay_range], and the sleep, an
    event of the trace when [time.sleep] takes the length drawn. *)
Definition _random_delay (self : AmazonReviewScraper) (trace : list event)
  : res (list event) :=
  match uniform (fetch_count trace) (delay_range self) with
  | Raise e => Raise e
  | Ret delay =>
      match time_sleep delay with
      | Raise e => Raise e
      | Ret _ => Ret (trace ++ [Sleep])%list
      end
  end.

(** [while current_url and page_num <= self.max_pages] *)
Definition loop_cond (st : state) : bool :=
  truthy (current_url st) && (page_num st <=? max_pages (self st)).

Definition loop_body (st : state) : control :=
  let n := fetch_count (trace st) in
  let trace := (trace st ++ [Get (current_url st)])%list in
  match _fetch_page n (current_url st) with
  | None => Break (mkState (self st) (current_url st) (page_num st) trace)
  | Some soup =>
      let page_reviews := extract_reviews_from_page (Some soup) in
      let self := extend (self st) page_reviews in
      match find_next_page_url (Some soup) with
      | Raise e => Throw e (mkState self (current_url st) (page_num st) trace)
      | Ret next_url =>
          match next_url with
          | Some url =>
              if truthy url && negb (String.eqb url (current_url st))
              then
                match _random_delay self trace with
                | Ret slept => Next (mkState self url (page_num st + 1) slept)
                | Raise e => Throw e (mkState self url (page_num st + 1) trace)
                end
              else Break (mkState self (current_url st) (page_num st) trace)
          | None => Break (mkState self (current_url st) (page_num st) trace)
          end
      end
  end.

(** The loop, for at most [fuel] iterations; [None] when the fuel
    runs out before the loop ends. *)
Fixpoint while_loop (fuel : nat) (st : state) : option (res unit * state) :=
  if loop_cond st then
    match fuel with
    | O => None
    | S fuel =>
        match loop_body st with
        | Next st' => while_loop fuel st'
        | Break st' => Some (Ret tt, st')
        | Throw e st' => Some (Raise e, st')
        end
    end
  else Some (Ret tt, st).

Definition enter (self : AmazonReviewScraper) (trace : list event) : state :=
  mkState self (base_url self) 1 trace.

(** [scrape()]: what it returns or raises, and the state it ends in. *)
Definition scrape (fuel : nat) (self : AmazonReviewScraper)
                  (trace : list event)
  : option (res (list string) * state) :=
  match while_loop fuel (enter self trace) with
  | Some (Ret _, st) => Some (Ret (reviews (Scraper.self st)), st)
  | Some (Raise e, st) => Some (Raise e, st)
  | None => None
  end.

(** One or more iterations that all go on lead from a state to another. *)
Inductive reaches : state -> state -> Prop :=
| reaches_here st : reaches st st
| reaches_next st st' st'' :
    loop_cond st = true ->
    loop_body st = Next st' ->
    reaches st' st'' ->
    reaches st st''.

End World.

(** *** [save_to_file] *)

(** The files, and which names [open(name, "w")] can open. *)
Record filesystem := mkFs {
  files : gmap string string;
  writable : string -> bool }.

Definition NL : string := String Url.LF EmptyString.

(** [f"Review {i}:\n{review}\n\n{'='*50}\n\n"] *)
Definition block (i : Z) (review : string) : string :=
  "Review " ++ of_int i ++ ":" ++ NL ++ review ++ NL ++ NL
  ++ PyStr.repeat "=" 50 ++ NL ++ NL.

(** [f.write(data)] on the file opened under [name] *)
Definition write (fs : filesystem) (name data : string) : filesystem :=
  mkFs (<[name := default EmptyString (files fs !! name) ++ data]> (files fs))
       (writable fs).

(** [for i, review in enumerate(reviews, i): f.write(...)] *)
Fixpoint write_blocks (fs : filesystem) (name : string) (i : Z)
                      (reviews : list string) : filesystem :=
  match reviews with
  | [] => fs
  | review :: rest => write_blocks (write fs name (block i review)) name (i + 1) rest
  end.

(** The blocks of a transcript: the [k]-th review (from 0) under the
    number [k + 1]. *)
Definition numbered_blocks (reviews : list string) : list string :=
  imap (fun k review => block (Z.of_nat k + 1) review) reviews.

(** [save_to_file]: [open(filename, "w")] raises when the destination
    cannot be opened and empties it when it can; the writes to the file
    it opened are taken to succeed. *)
Definition save_to_file (self : AmazonReviewScraper) (fs : filesystem)
                        (filename : string) : res filesystem :=
  if writable fs filename then
    let fs := mkFs (<[filename := EmptyString]> (files fs)) (writable fs) in
    Ret (write_blocks fs filename 1 (reviews self))
  else Raise OSError.

End Scraper.

(** ** Terms the properties are stated in *)

Module Terms.
Import PyStr Scraper.

(** The test method 2 makes on a link: its text has "Next" in it. *)
Definition reads_next (link : node) : bool :=
  truthy (text link) && contains "Next" (text link).

(** A series of requests with a sleep after each. *)
Definition paced (urls : list string) : list event :=
  flat_map (fun url => [Get url; Sleep]) urls.

(** [a], [b], [a], [b], ...: [n] locators. *)
Fixpoint alternate (a b : string) (n : nat) : list string :=
  match n with
  | O => []
  | S k => a :: alternate b a k
  end.

(** A review as the data model has it: trimmed and not empty. *)
Definition clean (review : string) : Prop :=
  strip review = review /\ review <> EmptyString.

Section World.

Variable session_get : nat -> string -> http_result.
Variable html_parser : string -> res node.

(** The reviews that extraction gives on the answers to a series of
    requests, the first of them being request number [n]. *)
Fixpoint harvest (n : nat) (urls : list string) : list string :=
  match urls with
  | [] => []
  | url :: rest =>
      (extract_reviews_from_page (_fetch_page session_get html_parser n url)
       ++ harvest (S n) rest)%list
  end.

End World.

End Terms.

(** ** The script's entry point *)

Module Main.
Import PyStr Scraper.

(** [s[:n]] *)
Fixpoint slice_to (n : nat) (s : string) : string :=
  match n, s with
  | S k, String c r => String c (slice_to k r)
  | _, _ => EmptyString
  end.

(** [for i, review in enumerate(reviews, i): print(...)]: what is given
    to [print], call after call; [print] writes it, line breaks
    included, and ends the line. *)
Fixpoint print_calls (i : Z) (reviews : list string) : list string :=
  match reviews with
  | [] => []
  | review :: rest =>
      ("Review " ++ of_int i ++ ": " ++ slice_to 100 review ++ "...")
        :: print_calls (i + 1) rest
  end.

(** The loop over [reviews[:5]]. *)
Definition print_preview (reviews : list string) : list string :=
  print_calls 1 (firstn 5 reviews).

(** What a run of the script leaves: what it gave to [print], call
    after call, the files, the events, and whether it ended or died of
    an exception. *)
Record run := mkRun {
  stdout : list string;
  disk : filesystem;
  events : list event;
  outcome : res unit }.

Section World.

Variable session_get : nat -> string -> http_result.
Variable html_parser : string -> res node.
Variable _check_bracketed_netloc : string -> bool.
Variable nfkc_check : string -> bool.
Variable uniform : nat -> Z * Z -> res QArith_base.Q.

(** The body of [if __name__ == "__main__":]. *)
Definition main (fuel : nat) (fs : filesystem) : option run :=
  let product_id : string := "B0BSHF7WHW" in
  let scraper := __init__ product_id 10 (3, 7) in
  match scrape session_get html_parser _check_bracketed_netloc nfkc_check
               uniform fuel scraper [] with
  | None => None
  | Some (Raise e, st) => Some (mkRun [] fs (trace st) (Raise e))
  | Some (Ret reviews, st) =>
      let printed := print_preview reviews in
      match save_to_file (self st) fs "amazon_reviews.txt" with
      | Ret fs' => Some (mkRun printed fs' (trace st) (Ret tt))
      | Raise e => Some (mkRun printed fs (trace st) (Raise e))
      end
  end.

End World.

End Main.

(** ** Sample documents *)

Module Samples.
Import Soup.

Definition document (contents : list node) : node :=
  Tag "[document]" ∅ contents.

Definition element (name attr value : string) (contents : list node) : node :=
  Tag name {[ attr := value ]} contents.

(** A page in two layouts at once: a collapsed review without its inner
    span, and a review body. *)
Definition two_layouts : node :=
  document
    [ element "div" "data-hook" "review-collapsed" [NavigableString "Loved it"];
      element "span" "data-hook" "review-body" [NavigableString "Works well"] ].

(** Three review bodies, the second one blank. *)
Definition three_bodies : node :=
  document
    [ element "span" "data-hook" "review-body" [NavigableString "  Great  "];
      element "span" "data-hook" "review-body" [NavigableString "   "];
      element "span" "data-hook" "review-body"
        [NavigableString "Bad"; Tag "br" ∅ []; NavigableString " battery"] ].

(** A pagination bar whose "Next" link has no href. *)
Definition next_link_without_href : node :=
  element "a" "class" "a-link-normal" [NavigableString "Next page"].

Definition pagination_without_href : node :=
  element "div" "id" "cm_cr-pagination_bar"
    [ element "a" "class" "a-link-normal" [NavigableString "Previous page"];
      next_link_without_href ].

Definition next_without_href : node :=
  document [ pagination_without_href ].

(** A last pagination item with a relative link. *)
Definition next_relative : node :=
  document
    [ element "ul" "class" "a-pagination"
        [ element "li" "class" "a-last"
            [ element "a" "href" "/product-reviews/B0BSHF7WHW?pageNumber=2"
                [NavigableString "Next page"] ] ] ].

(** A first page with two reviews and a link to a second page. *)
Definition page1 : node :=
  document
    [ element "span" "data-hook" "review-body" [NavigableString " Great "];
      element "span" "data-hook" "review-body" [NavigableString "Bad battery"];
      element "li" "class" "a-last"
        [ element "a" "href" "/product-reviews/B0BSHF7WHW?pageNumber=2"
            [NavigableString "Next page"] ] ].

(** A page whose next link leads back to the page itself. *)
Definition self_loop : node :=
  document
    [ element "span" "data-hook" "review-body" [NavigableString "Fine"];
      element "li" "class" "a-last"
        [ element "a" "href" "/product-reviews/B0BSHF7WHW"
            [NavigableString "Next page"] ] ].

Definition parser (body : string) : res node :=
  if String.eqb body "page1" then Ret page1
  else if String.eqb body "self_loop" then Ret self_loop
  else Ret (document []).

(** The site answers the first request with [page1] and throttles the
    second. *)
Definition throttled_on_page2 (n : nat) (url : string) : Scraper.http_result :=
  match n with
  | O => Scraper.Response 200 "page1"
  | _ => Scraper.Response 429 ""
  end.

Definition always_self_loop (n : nat) (url : string) : Scraper.http_result :=
  Scraper.Response 200 "self_loop".

Definition unreachable (n : nat) (url : string) : Scraper.http_result :=
  Scraper.RequestException.

(** Draws at the lower end of the range. *)
Definition lowest (n : nat) (range : Z * Z) : res QArith_base.Q :=
  Ret (QArith_base.inject_Z (fst range)).

(** Netloc checks that let every netloc pass. *)
Definition lenient (netloc : string) : bool := true.

(** A file system with one file, and every name but [/] writable. *)
Definition disk : Scraper.filesystem :=
  Scraper.mkFs {[ "amazon_reviews.txt" := "stale contents" ]}
               (fun name => negb (String.eqb name "/")).

End Samples.

Module MoreSamples.
Import Soup Samples.

(** A second page whose next link leads to a third page. *)
Definition page2 : node :=
  document
    [ element "span" "data-hook" "review-body" [NavigableString "Solid"];
      element "li" "class" "a-last"
        [ element "a" "href" "/product-reviews/B0BSHF7WHW?pageNumber=3"
            [NavigableString "Next page"] ] ].

(** A first page in an unknown layout, with a pagination bar whose
    "Next" link has no href. *)
Definition page_without_href : node :=
  document
    [ element "span" "data-hook" "review-body" [NavigableString "Nice"];
      pagination_without_href ].

Definition more_parser (body : string) : res node :=
  if String.eqb body "page1" then Ret page1
  else if String.eqb body "page2" then Ret page2
  else if String.eqb body "self_loop" then Ret self_loop
  else if String.eqb body "no_href" then Ret page_without_href
  else if String.eqb body "bare" then Ret (document [NavigableString "Sorry"])
  else Raise (ValueError "markup rejected").

(** Every page leads to another one: the pages alternate. *)
Definition endless (n : nat) (url : string) : Scraper.http_result :=
  Scraper.Response 200 (if Nat.even n then "page1" else "page2").

(** The first page and the second lead to each other. *)
Definition two_cycle (n : nat) (url : string) : Scraper.http_result :=
  if String.eqb url "https://www.amazon.com/product-reviews/B0BSHF7WHW"
  then Scraper.Response 200 "page1"
  else Scraper.Response 200 "self_loop".

Definition broken_pagination (n : nat) (url : string) : Scraper.http_result :=
  Scraper.Response 200 "no_href".

Definition bare_page (n : nat) (url : string) : Scraper.http_result :=
  Scraper.Response 200 "bare".

End MoreSamples.

(** * Properties *)

(** ** Facts about the string functions *)

Module PyStrFacts.
Import PyStr.

Lemma truthy_true (s : string) : truthy s = true <-> s <> EmptyString.
Proof. destruct s; simpl; split; congruence. Qed.

Lemma lstrip_by_head p s :
  lstrip_by p s = EmptyString
  \/ exists c r, lstrip_by p s = String c r /\ p c = false.
Proof.
  induction s as [|c r IH]; simpl; [now left|].
  destruct (p c) eqn:E; [exact IH|].
  right. now exists c, r.
Qed.

Lemma rstrip_by_cons p c r :
  rstrip_by p (String c r)
  = match rstrip_by p r with
    | EmptyString => if p c then EmptyString else String c EmptyString
    | r' => String c r'
    end.
Proof. reflexivity. Qed.

Lemma rstrip_by_idem p s : rstrip_by p (rstrip_by p s) = rstrip_by p s.
Proof.
  induction s as [|c r IH]; [reflexivity|].
  rewrite rstrip_by_cons.
  destruct (rstrip_by p r) as [|c' r'] eqn:E.
  - destruct (p c) eqn:Ec; simpl; [reflexivity|now rewrite Ec].
  - rewrite rstrip_by_cons, IH. reflexivity.
Qed.

Lemma rstrip_by_keeps_head p c r :
  p c = false -> exists r', rstrip_by p (String c r) = String c r'.
Proof.
  intros Hc. simpl. destruct (rstrip_by p r); [rewrite Hc|]; eauto.
Qed.

Lemma append_assoc (a b c : string) : (a ++ b) ++ c = a ++ (b ++ c).
Proof.
  induction a as [|x a IH]; [reflexivity|].
  change (String x ((a ++ b) ++ c) = String x (a ++ (b ++ c))).
  now rewrite IH.
Qed.

Lemma append_nil_r (a : string) : a ++ EmptyString = a.
Proof.
  induction a as [|x a IH]; [reflexivity|].
  change (String x (a ++ EmptyString) = String x a). now rewrite IH.
Qed.

Lemma strip_idem s : strip (strip s) = strip s.
Proof.
  unfold strip.
  destruct (lstrip_by_head isspace s) as [E|(c & r & E & Hc)]; rewrite E.
  - reflexivity.
  - destruct (rstrip_by_keeps_head isspace c r Hc) as [r' Hr'].
    rewrite Hr'. simpl lstrip_by. rewrite Hc, <- Hr'.
    apply rstrip_by_idem.
Qed.

End PyStrFacts.

(** ** Review extraction *)

Module ExtractSpec.
Import PyStr PyStrFacts Scraper.

Lemma collect_spec tag els acc :
  collect tag els acc
  = (acc ++ List.filter truthy (List.map (element_text tag) els))%list.
Proof.
  revert acc. induction els as [|e els IH]; intros acc; simpl.
  - now rewrite app_nil_r.
  - rewrite IH. destruct (truthy (element_text tag e)).
    + now rewrite <- app_assoc.
    + reflexivity.
Qed.

Lemma try_selectors_first pre tag attrs post soup acc :
  Forall (fun sel => find_all soup (fst sel) (snd sel) = []) pre ->
  find_all soup tag attrs <> [] ->
  try_selectors (pre ++ (tag, attrs) :: post) soup acc
  = collect tag (find_all soup tag attrs) acc.
Proof.
  intros Hpre Hne. induction Hpre as [|[t a] pre Hnil _ IH]; simpl.
  - destruct (find_all soup tag attrs); [congruence|reflexivity].
  - simpl in Hnil. now rewrite Hnil.
Qed.

Lemma element_text_strip tag e :
  strip (element_text tag e) = element_text tag e.
Proof.
  unfold element_text.
  destruct (String.eqb tag "div"); [destruct (find e "span" [])|];
    try apply strip_idem.
  reflexivity.
Qed.

Lemma collect_nonempty tag els acc :
  Forall (fun t => strip t <> EmptyString) acc ->
  Forall (fun t => strip t <> EmptyString) (collect tag els acc).
Proof.
  intros Hacc. rewrite collect_spec. apply Forall_app. split; [exact Hacc|].
  apply List.Forall_forall. intros t Ht.
  apply List.filter_In in Ht. destruct Ht as [Hin Ht].
  apply List.in_map_iff in Hin. destruct Hin as (e & <- & _).
  rewrite element_text_strip. now apply truthy_true.
Qed.

Lemma try_selectors_nonempty sels soup acc :
  Forall (fun t => strip t <> EmptyString) acc ->
  Forall (fun t => strip t <> EmptyString) (try_selectors sels soup acc).
Proof.
  intros Hacc. induction sels as [|[t a] sels IH]; [exact Hacc|].
  cbn [try_selectors].
  destruct (find_all soup t a) eqn:E; [exact IH|].
  apply collect_nonempty. exact Hacc.
Qed.

Lemma filter_map_length {A} (f : A -> string) (l : list A) :
  length (List.filter truthy (List.map f l))
  = length (List.filter (fun x => truthy (f x)) l).
Proof.
  induction l as [|x l IH]; simpl; [reflexivity|].
  destruct (truthy (f x)); simpl; now rewrite IH.
Qed.

Lemma filter_split_length {A} (p : A -> bool) (l : list A) :
  (length (List.filter p l) + length (List.filter (fun x => negb (p x)) l)
   = length l)%nat.
Proof.
  induction l as [|x l IH]; simpl; [reflexivity|].
  destruct (p x); simpl; lia.
Qed.

(** C5. Of the strategies that match a page, only the first in the list
    counts: when the strategies before [(tag, attrs)] match nothing and
    [(tag, attrs)] matches at least one element, the page's reviews are
    the non-empty texts of those elements and nothing else, whatever the
    later strategies match and even when none of these texts is
    non-empty. *)
Theorem extract_first_matching_strategy
        (soup : node) pre tag attrs post :
  selectors = (pre ++ (tag, attrs) :: post)%list ->
  Forall (fun sel => find_all soup (fst sel) (snd sel) = []) pre ->
  find_all soup tag attrs <> [] ->
  extract_reviews_from_page (Some soup)
  = List.filter truthy
      (List.map (element_text tag) (find_all soup tag attrs)).
Proof.
  intros Hsel Hpre Hne. unfold extract_reviews_from_page.
  rewrite Hsel, (try_selectors_first _ _ _ _ _ _ Hpre Hne).
  now rewrite collect_spec.
Qed.

Lemma extract_first_matching_strategy_witness :
  find_all Samples.two_layouts "span" [("data-hook", "review-body")] <> []
  /\ extract_reviews_from_page (Some Samples.two_layouts) = [].
Proof.
  split; [vm_compute; discriminate|].
  rewrite (extract_first_matching_strategy Samples.two_layouts []
             "div" [("data-hook", "review-collapsed")]
             [("span", [("data-hook", "review-body")]);
              ("span", [("class", "a-size-base review-text")])]).
  - vm_compute. reflexivity.
  - reflexivity.
  - constructor.
  - vm_compute. discriminate.
Defined.

(** C8. Every text that extraction returns is non-empty after trimming;
    and when the strategy that is used matches three elements of which
    one has a blank text, exactly two reviews come out. *)
Theorem extract_texts_nonempty :
  (forall soup,
      Forall (fun t => strip t <> EmptyString)
             (extract_reviews_from_page soup))
  /\ (forall (soup : node) pre tag attrs post els,
         selectors = (pre ++ (tag, attrs) :: post)%list ->
         Forall (fun sel => find_all soup (fst sel) (snd sel) = []) pre ->
         find_all soup tag attrs = els ->
         length els = 3%nat ->
         length (List.filter
                   (fun e => negb (truthy (element_text tag e))) els) = 1%nat ->
         length (extract_reviews_from_page (Some soup)) = 2%nat).
Proof.
  split.
  - intros [soup|]; unfold extract_reviews_from_page; [|constructor].
    apply try_selectors_nonempty. constructor.
  - intros soup pre tag attrs post els Hsel Hpre Hels Hlen Hblank.
    unfold extract_reviews_from_page. rewrite Hsel.
    rewrite try_selectors_first; [|exact Hpre|].
    + rewrite collect_spec, Hels. simpl. rewrite filter_map_length.
      pose proof (filter_split_length
                    (fun e => truthy (element_text tag e)) els). lia.
    + rewrite Hels. destruct els; [discriminate|congruence].
Qed.

Lemma extract_texts_nonempty_witness :
  extract_reviews_from_page (Some Samples.three_bodies)
  = ["Great"; "Bad battery"]
  /\ length (extract_reviews_from_page (Some Samples.three_bodies)) = 2%nat.
Proof.
  split; [vm_compute; reflexivity|].
  destruct extract_texts_nonempty as [_ H].
  apply (H Samples.three_bodies
           [("div", [("data-hook", "review-collapsed")])]
           "span" [("data-hook", "review-body")]
           [("span", [("class", "a-size-base review-text")])]
           (find_all Samples.three_bodies "span" [("data-hook", "review-body")])).
  - reflexivity.
  - constructor; [vm_compute; reflexivity|constructor].
  - reflexivity.
  - vm_compute. reflexivity.
  - vm_compute. reflexivity.
Defined.

End ExtractSpec.

(** ** [urljoin] against the site's root *)

Module UrlFacts.
Import PyStr Url.

Section Checks.

Variable _check_bracketed_netloc : string -> bool.
Variable nfkc_check : string -> bool.

Local Abbreviation urlsplit := (Url.urlsplit _check_bracketed_netloc nfkc_check).
Local Abbreviation urlparse := (Url.urlparse _check_bracketed_netloc nfkc_check).
Local Abbreviation urljoin := (Url.urljoin _check_bracketed_netloc nfkc_check).

Lemma urlsplit_scheme url d r :
  urlsplit url d = Ret r ->
  s_scheme r = match split_scheme (clean_url url) with
               | Some (s, _) => s
               | None => clean_scheme d
               end.
Proof.
  unfold Url.urlsplit. intros H.
  destruct (split_scheme (clean_url url)) as [[s rest]|];
    repeat case_match; simplify_eq; reflexivity.
Qed.

Lemma urlparse_scheme url d u :
  urlparse url d = Ret u ->
  scheme u = match split_scheme (clean_url url) with
             | Some (s, _) => s
             | None => clean_scheme d
             end.
Proof.
  unfold Url.urlparse. intros H.
  destruct (urlsplit url d) as [r|] eqn:E; [|discriminate].
  apply urlsplit_scheme in E. rewrite <- E.
  repeat case_match; simplify_eq; reflexivity.
Qed.

Lemma https_prefix_absolute rest : is_absolute ("https:" ++ rest) = true.
Proof. reflexivity. Qed.

Lemma startswith_app p s :
  startswith p s = true -> exists rest, s = p ++ rest.
Proof.
  revert s. induction p as [|a p IH]; intros s H.
  - now exists s.
  - destruct s as [|b s]; [discriminate|]. simpl in H.
    apply andb_true_iff in H. destruct H as [Hab H].
    apply Ascii.eqb_eq in Hab. subst b.
    destruct (IH s H) as [rest ->]. now exists rest.
Qed.

Lemma https_root_absolute url :
  startswith "https://" url = true -> is_absolute url = true.
Proof.
  intros H. apply startswith_app in H. destruct H as [rest ->].
  apply (https_prefix_absolute ("//" ++ rest)).
Qed.

Lemma urlunparse_https netloc url params query fragment :
  truthy netloc = true ->
  startswith "https://"
    (urlunparse "https" netloc url params query fragment) = true.
Proof.
  intros Hn. unfold urlunparse, urlunsplit. rewrite Hn. cbn [truthy orb].
  repeat case_match; reflexivity.
Qed.

Lemma urlparse_root :
  urlparse "https://www.amazon.com" EmptyString
  = Ret (mkParse "https" "www.amazon.com" "" "" "" "").
Proof. reflexivity. Qed.

(** The join of the root with an href is a locator under [https://], or
    the href itself when the href has another scheme of its own. *)
Lemma urljoin_root_shape href url :
  urljoin "https://www.amazon.com" href = Ret url ->
  startswith "https://" url = true
  \/ (url = href
      /\ exists s rest,
          split_scheme (clean_url href) = Some (s, rest) /\ s <> "https").
Proof.
  unfold Url.urljoin. rewrite urlparse_root.
  cbn [truthy negb scheme netloc path params query fragment].
  destruct (truthy href) eqn:Hhref; cbn [negb].
  2:{ intros [= <-]. now left. }
  destruct (urlparse href "https") as [u|] eqn:Eu; [|discriminate].
  apply urlparse_scheme in Eu.
  destruct (String.eqb (scheme u) "https") eqn:Eq.
  - apply String.eqb_eq in Eq. rewrite Eq. intros H. left.
    change (member "https" uses_relative) with true in H.
    change (member "https" uses_netloc) with true in H.
    cbn [negb orb andb] in H.
    destruct (truthy (Url.netloc u)) eqn:Hn;
      repeat case_match; simplify_eq; now apply urlunparse_https.
  - cbn [negb orb]. intros [= <-]. right. split; [reflexivity|].
    destruct (split_scheme (clean_url href)) as [[s rest]|].
    + exists s, rest. split; [reflexivity|]. intros ->.
      rewrite Eu in Eq. discriminate.
    + rewrite Eu in Eq. discriminate.
Qed.

Lemma urljoin_root_absolute href url :
  urljoin "https://www.amazon.com" href = Ret url ->
  is_absolute url = true.
Proof.
  intros H. apply urljoin_root_shape in H.
  destruct H as [H|(-> & s & rest & H & _)].
  - now apply https_root_absolute.
  - unfold is_absolute. now rewrite H.
Qed.

End Checks.

End UrlFacts.

(** ** Next-page discovery *)

Module FindNextSpec.
Import PyStr Scraper.

Section Checks.

Variable _check_bracketed_netloc : string -> bool.
Variable nfkc_check : string -> bool.

Local Abbreviation urljoin := (Scraper.urljoin _check_bracketed_netloc nfkc_check).
Local Abbreviation scan_links := (Scraper.scan_links _check_bracketed_netloc nfkc_check).
Local Abbreviation method2 := (Scraper.method2 _check_bracketed_netloc nfkc_check).
Local Abbreviation find_next_page_url :=
  (Scraper.find_next_page_url _check_bracketed_netloc nfkc_check).

Lemma scan_links_joined next_links url :
  scan_links next_links = Ret (Some url) ->
  exists href, urljoin ROOT href = Ret url.
Proof.
  induction next_links as [|link rest IH]; simpl; [discriminate|].
  destruct (truthy (text link) && contains "Next" (text link)); [|exact IH].
  destruct (getitem link "href") as [href|]; [|discriminate].
  destruct (urljoin ROOT href) as [u|] eqn:E; [|discriminate].
  intros [= <-]. now exists href.
Qed.

Lemma method2_joined soup url :
  method2 soup = Ret (Some url) ->
  exists href, urljoin ROOT href = Ret url.
Proof.
  unfold Scraper.method2.
  destruct (find soup "div" [("id", "cm_cr-pagination_bar")]); [|discriminate].
  apply scan_links_joined.
Qed.

Lemma find_next_page_url_joined soup url :
  find_next_page_url soup = Ret (Some url) ->
  exists href, urljoin ROOT href = Ret url.
Proof.
  destruct soup as [soup|]; [|discriminate].
  unfold Scraper.find_next_page_url.
  destruct (find soup "li" [("class", "a-last")]) as [li|];
    [|apply method2_joined].
  destruct (find li "a" []) as [a|]; [|apply method2_joined].
  destruct (get a "href") as [href|]; [|apply method2_joined].
  destruct (truthy href); [|apply method2_joined].
  destruct (urljoin ROOT href) as [u|] eqn:E; [|discriminate].
  intros [= <-]. now exists href.
Qed.

Lemma find_next_page_url_truthy soup url :
  find_next_page_url soup = Ret (Some url) -> truthy url = true.
Proof.
  intros H. apply find_next_page_url_joined in H. destruct H as [href H].
  apply UrlFacts.urljoin_root_absolute in H.
  destruct url; [discriminate|reflexivity].
Qed.

(** C2. There is a document with no last pagination item, whose
    pagination bar holds a link that reads "Next ..." and has no href;
    on it next-page discovery raises [KeyError] instead of returning. *)
Theorem find_next_page_url_raises_without_href :
  exists soup pagination link,
    find soup "li" [("class", "a-last")] = None
    /\ find soup "div" [("id", "cm_cr-pagination_bar")] = Some pagination
    /\ In link (find_all pagination "a" [("class", "a-link-normal")])
    /\ contains "Next" (text link) = true
    /\ get link "href" = None
    /\ find_next_page_url (Some soup) = Raise (KeyError "href").
Proof.
  exists Samples.next_without_href, Samples.pagination_without_href,
         Samples.next_link_without_href.
  repeat split; try (vm_compute; reflexivity).
  vm_compute. right. left. reflexivity.
Qed.

(** C3. Whenever next-page discovery returns a locator, the locator is
    absolute: it is the join of the site's root with an href, and that
    is a locator under [https://], or the href itself when the href has
    another scheme of its own. *)
Theorem find_next_page_url_absolute (soup : option node) (url : string) :
  find_next_page_url soup = Ret (Some url) ->
  Url.is_absolute url = true
  /\ exists href,
       urljoin ROOT href = Ret url
       /\ (startswith "https://" url = true
           \/ (url = href
               /\ exists s rest,
                   Url.split_scheme (Url.clean_url href) = Some (s, rest)
                   /\ s <> "https")).
Proof.
  intros H. apply find_next_page_url_joined in H. destruct H as [href H].
  split.
  - eapply UrlFacts.urljoin_root_absolute. exact H.
  - exists href. split; [exact H|].
    eapply UrlFacts.urljoin_root_shape. exact H.
Qed.

End Checks.

Lemma find_next_page_url_absolute_witness :
  Scraper.find_next_page_url Samples.lenient Samples.lenient
    (Some Samples.next_relative)
  = Ret (Some "https://www.amazon.com/product-reviews/B0BSHF7WHW?pageNumber=2")
  /\ Url.is_absolute
       "https://www.amazon.com/product-reviews/B0BSHF7WHW?pageNumber=2" = true.
Proof.
  assert (H : Scraper.find_next_page_url Samples.lenient Samples.lenient
                (Some Samples.next_relative)
              = Ret (Some "https://www.amazon.com/product-reviews/B0BSHF7WHW?pageNumber=2"))
    by (vm_compute; reflexivity).
  split; [exact H|].
  exact (proj1 (find_next_page_url_absolute _ _ _ _ H)).
Defined.

End FindNextSpec.

(** ** The crawl loop *)

Module CrawlSpec.
Import PyStr Scraper.

Section World.

Variable session_get : nat -> string -> http_result.
Variable html_parser : string -> res node.
Variable _check_bracketed_netloc : string -> bool.
Variable nfkc_check : string -> bool.
Variable uniform : nat -> Z * Z -> res QArith_base.Q.

Local Abbreviation _fetch_page := (Scraper._fetch_page session_get html_parser).
Local Abbreviation find_next_page_url :=
  (Scraper.find_next_page_url _check_bracketed_netloc nfkc_check).
Local Abbreviation loop_body :=
  (Scraper.loop_body session_get html_parser _check_bracketed_netloc nfkc_check
     uniform).
Local Abbreviation while_loop :=
  (Scraper.while_loop session_get html_parser _check_bracketed_netloc nfkc_check
     uniform).
Local Abbreviation scrape :=
  (Scraper.scrape session_get html_parser _check_bracketed_netloc nfkc_check
     uniform).
Local Abbreviation reaches :=
  (Scraper.reaches session_get html_parser _check_bracketed_netloc nfkc_check
     uniform).

Lemma fetch_count_get trace url :
  fetch_count (trace ++ [Get url]) = S (fetch_count trace).
Proof.
  unfold fetch_count. rewrite List.filter_app, length_app. simpl. lia.
Qed.

Lemma fetch_count_get_sleep trace url :
  fetch_count ((trace ++ [Get url]) ++ [Sleep]) = S (fetch_count trace).
Proof.
  unfold fetch_count. rewrite !List.filter_app, !length_app. simpl. lia.
Qed.

Lemma random_delay_waits self trace :
  waits uniform (fetch_count trace) (delay_range self) = true ->
  Scraper._random_delay uniform self trace = Ret (trace ++ [Sleep])%list.
Proof.
  unfold waits, Scraper._random_delay.
  destruct (uniform _ _) as [delay|]; [|discriminate].
  now destruct (time_sleep delay) as [[]|].
Qed.

Lemma random_delay_fails self trace :
  waits uniform (fetch_count trace) (delay_range self) = false ->
  exists e, Scraper._random_delay uniform self trace = Raise e.
Proof.
  unfold waits, Scraper._random_delay.
  destruct (uniform _ _) as [delay|e]; [|now exists e].
  destruct (time_sleep delay) as [[]|e]; [discriminate|now exists e].
Qed.

Lemma loop_body_effect st :
  match loop_body st with
  | Next st' => advances_from st st'
  | Break st' => stops_from st st'
  | Throw _ st' => raises_from st st'
  end.
Proof.
  unfold Scraper.loop_body, stops_from, advances_from, raises_from,
    Scraper._random_delay.
  destruct (_fetch_page (fetch_count (trace st)) (current_url st)) as [soup|].
  2:{ simpl. repeat split; done. }
  destruct (find_next_page_url (Some soup)) as [[url|]|e];
    [destruct (truthy url && negb (String.eqb url (current_url st)));
     [destruct (uniform _ _) as [delay|];
      [destruct (time_sleep delay)|]|]|..];
    simpl; rewrite <- ?app_assoc; repeat split; try apply prefix_app_r;
    reflexivity.
Qed.

Lemma while_loop_total fuel st :
  (Z.to_nat (max_pages (self st) + 1 - page_num st) <= fuel)%nat ->
  exists r st',
    while_loop fuel st = Some (r, st')
    /\ (fetch_count (trace st')
        <= fetch_count (trace st)
           + Z.to_nat (max_pages (self st) + 1 - page_num st))%nat
    /\ trace st `prefix_of` trace st'.
Proof.
  revert st. induction fuel as [|fuel IH]; intros st Hfuel.
  - simpl. unfold loop_cond.
    destruct (page_num st <=? max_pages (self st)) eqn:E.
    + apply Z.leb_le in E. lia.
    + rewrite andb_false_r. exists (Ret tt), st. repeat split; [lia|done].
  - simpl. unfold loop_cond.
    destruct (truthy (current_url st) && (page_num st <=? max_pages (self st)))
      eqn:E.
    2:{ exists (Ret tt), st. repeat split; [lia|done]. }
    apply andb_true_iff in E. destruct E as [_ E]. apply Z.leb_le in E.
    pose proof (loop_body_effect st) as Hb.
    destruct (loop_body st) as [st'|st'|e st'].
    + destruct Hb as (Hmax & Hpage & Htrace & _).
      destruct (IH st') as (r & st'' & Hrun & Hcount & Hpre).
      { rewrite Hmax, Hpage. lia. }
      exists r, st''. split; [exact Hrun|]. split.
      * rewrite Htrace in Hcount.
        change [Get (current_url st); Sleep]
          with ([Get (current_url st)] ++ [Sleep])%list in Hcount.
        rewrite app_assoc, fetch_count_get_sleep, Hmax, Hpage in Hcount. lia.
      * etrans; [|exact Hpre]. rewrite Htrace. apply prefix_app_r. done.
    + destruct Hb as (_ & _ & _ & Htrace & _).
      exists (Ret tt), st'. split; [reflexivity|]. split.
      * rewrite Htrace, fetch_count_get. lia.
      * rewrite Htrace. apply prefix_app_r. done.
    + destruct Hb as (_ & Htrace & _).
      exists (Raise e), st'. split; [reflexivity|]. split.
      * rewrite Htrace, fetch_count_get. lia.
      * rewrite Htrace. apply prefix_app_r. done.
Qed.

Lemma while_loop_mono fuel fuel' st out :
  while_loop fuel st = Some out -> (fuel <= fuel')%nat ->
  while_loop fuel' st = Some out.
Proof.
  revert fuel' st. induction fuel as [|fuel IH]; intros fuel' st H Hle.
  - simpl in H. destruct fuel'; simpl; destruct (loop_cond st); congruence.
  - destruct fuel' as [|fuel']; [lia|]. simpl in *.
    destruct (loop_cond st); [|exact H].
    destruct (loop_body st); try exact H.
    apply IH; [exact H|lia].
Qed.

Lemma while_loop_grows fuel st r st' :
  while_loop fuel st = Some (r, st') ->
  reviews (self st) `prefix_of` reviews (self st').
Proof.
  revert st. induction fuel as [|fuel IH]; intros st; simpl.
  - destruct (loop_cond st); [discriminate|]. now intros [= _ <-].
  - destruct (loop_cond st); [|now intros [= _ <-]].
    pose proof (loop_body_effect st) as Hb.
    destruct (loop_body st) as [st1|st1|e st1].
    + intros H. apply IH in H. etrans; [|exact H]. apply Hb.
    + intros [= _ <-]. apply Hb.
    + intros [= _ <-]. apply Hb.
Qed.

Lemma reaches_run st0 st :
  reaches st0 st ->
  forall fuel out, while_loop fuel st = Some out ->
  exists fuel0, while_loop fuel0 st0 = Some out.
Proof.
  induction 1 as [st|st st' st'' Hcond Hbody _ IH]; intros fuel out Hrun.
  - now exists fuel.
  - destruct (IH fuel out Hrun) as [fuel0 H0].
    exists (S fuel0). simpl. now rewrite Hcond, Hbody.
Qed.

Lemma reaches_max_pages st0 st :
  reaches st0 st -> max_pages (self st) = max_pages (self st0).
Proof.
  induction 1 as [st|st st' st'' Hcond Hbody _ IH]; [reflexivity|].
  pose proof (loop_body_effect st) as Hb. rewrite Hbody in Hb.
  rewrite IH. apply Hb.
Qed.

Lemma while_loop_trace_grows fuel st r st' :
  while_loop fuel st = Some (r, st') -> trace st `prefix_of` trace st'.
Proof.
  revert st. induction fuel as [|fuel IH]; intros st; simpl.
  - destruct (loop_cond st); [discriminate|]. now intros [= _ <-].
  - destruct (loop_cond st); [|now intros [= _ <-]].
    pose proof (loop_body_effect st) as Hb.
    destruct (loop_body st) as [st1|st1|e st1].
    + intros H. apply IH in H. etrans; [|exact H].
      destruct Hb as (_ & _ & -> & _). now apply prefix_app_r.
    + intros [= _ <-]. destruct Hb as (_ & _ & _ & -> & _).
      now apply prefix_app_r.
    + intros [= _ <-]. destruct Hb as (_ & -> & _).
      now apply prefix_app_r.
Qed.

Lemma while_loop_first_fetch fuel st r st' :
  loop_cond st = true ->
  while_loop fuel st = Some (r, st') ->
  exists rest, trace st' = (trace st ++ Get (current_url st) :: rest)%list.
Proof.
  intros Hcond. destruct fuel as [|fuel]; simpl; rewrite Hcond; [discriminate|].
  pose proof (loop_body_effect st) as Hb.
  destruct (loop_body st) as [st1|st1|e st1].
  - intros H. apply while_loop_trace_grows in H. destruct H as [k Hk].
    destruct Hb as (_ & _ & Ht & _). rewrite Hk, Ht, <- app_assoc.
    now exists (Sleep :: k).
  - intros [= _ <-]. destruct Hb as (_ & _ & _ & -> & _). now exists [].
  - intros [= _ <-]. destruct Hb as (_ & -> & _). now exists [].
Qed.

Lemma absence_fetch n url :
  absence (session_get n url) -> _fetch_page n url = None.
Proof.
  unfold absence, Scraper._fetch_page.
  destruct (session_get n url) as [code body|]; [|reflexivity].
  intros Hne. apply Z.eqb_neq in Hne. rewrite Hne.
  now destruct ((code =? 503) || (code =? 429)).
Qed.

Lemma scrape_total fuel self trace0 :
  (Z.to_nat (max_pages self) <= fuel)%nat ->
  exists r st,
    scrape fuel self trace0 = Some (r, st)
    /\ (fetch_count (trace st)
        <= fetch_count trace0 + Z.to_nat (max_pages self))%nat.
Proof.
  intros Hfuel.
  destruct (while_loop_total fuel (enter self trace0))
    as (r & st & Hrun & Hcount & _).
  { simpl. now replace (max_pages self + 1 - 1) with (max_pages self) by lia. }
  simpl in Hcount.
  replace (max_pages self + 1 - 1) with (max_pages self) in Hcount by lia.
  unfold Scraper.scrape. rewrite Hrun.
  destruct r as [[]|e]; eexists _, st; (split; [reflexivity|exact Hcount]).
Qed.

(** C6. With [max_pages = N], N positive, [scrape] ends (it returns or
    raises) within N iterations, and makes at most N requests. *)
Theorem scrape_terminates_within_max_pages self trace0 N fuel :
  max_pages self = N -> 0 < N -> (Z.to_nat N <= fuel)%nat ->
  exists r st,
    scrape fuel self trace0 = Some (r, st)
    /\ Z.of_nat (fetch_count (trace st)) <= Z.of_nat (fetch_count trace0) + N.
Proof.
  intros HN Hpos Hfuel. subst N.
  destruct (scrape_total fuel self trace0 Hfuel) as (r & st & Hrun & Hcount).
  exists r, st. split; [exact Hrun|lia].
Qed.

Lemma absence_ends_crawl self trace0 st fuel :
  reaches (enter self trace0) st ->
  loop_cond st = true ->
  absence (session_get (fetch_count (trace st)) (current_url st)) ->
  (Z.to_nat (max_pages self) <= fuel)%nat ->
  scrape fuel self trace0
  = Some (Ret (reviews (Scraper.self st)),
          mkState (Scraper.self st) (current_url st) (page_num st)
                  (trace st ++ [Get (current_url st)])).
Proof.
  intros Hreach Hcond Habs Hfuel. apply absence_fetch in Habs.
  assert (Hstop : while_loop 1 st
                  = Some (Ret tt,
                          mkState (Scraper.self st) (current_url st) (page_num st)
                                  (trace st ++ [Get (current_url st)]))).
  { simpl. rewrite Hcond. unfold Scraper.loop_body. now rewrite Habs. }
  destruct (reaches_run _ _ Hreach _ _ Hstop) as [fuel0 H0].
  destruct (while_loop_total fuel (enter self trace0)) as (r & st' & Hrun & _).
  { simpl. lia. }
  pose proof (while_loop_mono _ (Nat.max fuel fuel0) _ _ H0 ltac:(lia)) as H1.
  pose proof (while_loop_mono _ (Nat.max fuel fuel0) _ _ Hrun ltac:(lia)) as H2.
  rewrite H1 in H2. injection H2 as <- <-.
  unfold Scraper.scrape. now rewrite Hrun.
Qed.

Lemma fetched_app t1 t2 : fetched (t1 ++ t2) = (fetched t1 ++ fetched t2)%list.
Proof. unfold fetched. apply flat_map_app. Qed.

(** C4. When the crawl comes to a page whose fetch gives no page (an
    exception of the transport, a rate-limited status, any status other
    than 200), [scrape] returns, without raising, the reviews collected
    up to then. In particular, when page 1 of a crawl of at most 5 pages
    leads to a page 2, the sleep before page 2 goes through and the fetch
    of page 2 gives no page, [scrape] requests the two pages and returns
    the reviews it had before with those of page 1. *)
Theorem scrape_returns_accumulated_on_absence :
  (forall self trace0 st fuel,
      reaches (enter self trace0) st ->
      loop_cond st = true ->
      absence (session_get (fetch_count (trace st)) (current_url st)) ->
      (Z.to_nat (max_pages self) <= fuel)%nat ->
      scrape fuel self trace0
      = Some (Ret (reviews (Scraper.self st)),
              mkState (Scraper.self st) (current_url st) (page_num st)
                      (trace st ++ [Get (current_url st)])))
  /\ (forall self trace0 soup url2 fuel,
         max_pages self = 5 ->
         truthy (base_url self) = true ->
         _fetch_page (fetch_count trace0) (base_url self) = Some soup ->
         find_next_page_url (Some soup) = Ret (Some url2) ->
         url2 <> base_url self ->
         waits uniform (S (fetch_count trace0)) (delay_range self) = true ->
         absence (session_get (S (fetch_count trace0)) url2) ->
         (5 <= fuel)%nat ->
         exists st,
           scrape fuel self trace0
           = Some (Ret (reviews self ++ extract_reviews_from_page (Some soup))%list,
                   st)
           /\ fetched (trace st)
              = (fetched trace0 ++ [base_url self; url2])%list).
Proof.
  split; [exact absence_ends_crawl|].
  intros self trace0 soup url2 fuel Hmax Hbase Hfetch Hnext Hne Hsleep Habs
    Hfuel.
  pose (st1 := mkState (extend self (extract_reviews_from_page (Some soup)))
                       url2 2
                       ((trace0 ++ [Get (base_url self)]) ++ [Sleep])).
  assert (Htruthy : truthy url2 = true)
    by (eapply FindNextSpec.find_next_page_url_truthy; exact Hnext).
  assert (Hreach : reaches (enter self trace0) st1).
  { apply (reaches_next _ _ _ _ _ _ st1).
    - unfold loop_cond. simpl. rewrite Hbase, Hmax. reflexivity.
    - unfold Scraper.loop_body, enter.
      cbn [current_url trace Scraper.self page_num].
      rewrite Hfetch, Hnext, Htruthy, random_delay_waits.
      + apply String.eqb_neq in Hne. rewrite Hne. reflexivity.
      + rewrite fetch_count_get. exact Hsleep.
    - apply reaches_here. }
  eexists. split.
  - apply (absence_ends_crawl self trace0 st1 fuel Hreach).
    + unfold loop_cond. simpl. rewrite Htruthy, Hmax. reflexivity.
    + simpl. rewrite fetch_count_get_sleep. exact Habs.
    + rewrite Hmax. simpl. lia.
  - simpl. rewrite !fetched_app, <- !app_assoc.
    reflexivity.
Qed.

(** C7. In an iteration that fetched a page: when discovery gives no
    locator, or the locator of the current page, the loop stops there,
    with no further request; and an iteration goes on only with a
    locator that discovery gave and that differs from the current one. *)
Theorem loop_advances_only_to_another_page :
  (forall st soup next,
      _fetch_page (fetch_count (trace st)) (current_url st) = Some soup ->
      find_next_page_url (Some soup) = Ret next ->
      next = None \/ next = Some (current_url st) ->
      exists st',
        loop_body st = Break st'
        /\ trace st' = (trace st ++ [Get (current_url st)])%list
        /\ (loop_cond st = true ->
            forall fuel, while_loop (S fuel) st = Some (Ret tt, st')))
  /\ (forall st st',
         loop_body st = Next st' ->
         exists soup url,
           _fetch_page (fetch_count (trace st)) (current_url st) = Some soup
           /\ find_next_page_url (Some soup) = Ret (Some url)
           /\ url <> current_url st
           /\ current_url st' = url
           /\ page_num st' = page_num st + 1).
Proof.
  split.
  - intros st soup next Hfetch Hnext Hcase.
    eexists. split; [|split].
    + unfold Scraper.loop_body. rewrite Hfetch, Hnext.
      destruct Hcase as [->| ->]; [reflexivity|].
      rewrite String.eqb_refl, andb_false_r. reflexivity.
    + reflexivity.
    + intros Hcond fuel. simpl. rewrite Hcond.
      unfold Scraper.loop_body. rewrite Hfetch, Hnext.
      destruct Hcase as [->| ->]; [reflexivity|].
      rewrite String.eqb_refl, andb_false_r. reflexivity.
  - intros st st'. unfold Scraper.loop_body.
    destruct (_fetch_page (fetch_count (trace st)) (current_url st))
      as [soup|]; [|discriminate].
    destruct (find_next_page_url (Some soup)) as [[url|]|e] eqn:Hnext;
      try discriminate.
    destruct (truthy url && negb (String.eqb url (current_url st))) eqn:E;
      [|discriminate].
    destruct (Scraper._random_delay uniform _ _) as [slept|e];
      [|discriminate].
    intros [= <-]. exists soup, url.
    apply andb_true_iff in E. destruct E as [_ E].
    apply negb_true_iff, String.eqb_neq in E.
    repeat split; assumption.
Qed.

(** C10. The reviews an iteration leaves are the reviews it found,
    followed by what it adds: the old sequence is a prefix of the new
    one, after each iteration, after the loop and after [scrape]. *)
Theorem reviews_only_grow :
  (forall st,
      match loop_body st with
      | Next st' | Break st' | Throw _ st' =>
          reviews (self st) `prefix_of` reviews (self st')
      end)
  /\ (forall st soup,
         _fetch_page (fetch_count (trace st)) (current_url st) = Some soup ->
         match loop_body st with
         | Next st' | Break st' | Throw _ st' =>
             reviews (self st')
             = (reviews (self st) ++ extract_reviews_from_page (Some soup))%list
         end)
  /\ (forall fuel self trace0 r st',
         scrape fuel self trace0 = Some (r, st') ->
         reviews self `prefix_of` reviews (Scraper.self st')).
Proof.
  split; [|split].
  - intros st. pose proof (loop_body_effect st) as Hb.
    destruct (loop_body st); apply Hb.
  - intros st soup Hfetch. unfold Scraper.loop_body. rewrite Hfetch.
    destruct (find_next_page_url (Some soup)) as [[url|]|e];
      [destruct (truthy url && negb (String.eqb url (current_url st)));
       [destruct (Scraper._random_delay uniform _ _)|]|..];
      reflexivity.
  - intros fuel self trace0 r st'. unfold Scraper.scrape.
    destruct (while_loop fuel (enter self trace0)) as [[[[]|e] st]|] eqn:E;
      try discriminate; intros [= _ <-];
      apply while_loop_grows in E; exact E.
Qed.

(** C1, as the code has it. The constructor stores the hardcoded
    identifier whatever identifier it is given, but builds [base_url]
    from the identifier it is given; a crawl of at least one page
    requests that [base_url] first. *)
Theorem init_keeps_supplied_identifier_in_base_url pid mp dr trace0 fuel :
  1 <= mp -> (Z.to_nat mp <= fuel)%nat ->
  product_id (__init__ pid mp dr) = "B09G9FPHY6"
  /\ base_url (__init__ pid mp dr)
     = "https://www.amazon.com/product-reviews/" ++ pid
  /\ exists r st rest,
       scrape fuel (__init__ pid mp dr) trace0 = Some (r, st)
       /\ trace st
          = (trace0
             ++ Get ("https://www.amazon.com/product-reviews/" ++ pid) :: rest)%list.
Proof.
  intros Hmp Hfuel. split; [reflexivity|]. split; [reflexivity|].
  destruct (while_loop_total fuel (enter (__init__ pid mp dr) trace0))
    as (r & st & Hrun & _).
  { simpl. lia. }
  assert (Hcond : loop_cond (enter (__init__ pid mp dr) trace0) = true).
  { unfold loop_cond. simpl. apply Z.leb_le. lia. }
  destruct (while_loop_first_fetch _ _ _ _ Hcond Hrun) as [rest Hrest].
  unfold Scraper.scrape. rewrite Hrun.
  destruct r as [[]|e]; eexists _, st, rest; (split; [reflexivity|exact Hrest]).
Qed.

End World.

Section Runs.

Import Samples.

Local Abbreviation scrape_throttled :=
  (Scraper.scrape throttled_on_page2 parser lenient lenient lowest).
Local Abbreviation scrape_unreachable :=
  (Scraper.scrape unreachable parser lenient lenient lowest).

Lemma scrape_terminates_within_max_pages_witness :
  exists r st,
    scrape_throttled 5 (__init__ "B0BSHF7WHW" 5 (3, 7)) [] = Some (r, st)
    /\ Z.of_nat (fetch_count (trace st)) <= Z.of_nat (fetch_count []) + 5.
Proof.
  apply (scrape_terminates_within_max_pages
           throttled_on_page2 parser lenient lenient lowest
           (__init__ "B0BSHF7WHW" 5 (3, 7)) [] 5 5);
    [reflexivity | lia | simpl; lia].
Defined.

Lemma scrape_returns_accumulated_on_absence_witness :
  exists st,
    scrape_throttled 5 (__init__ "B0BSHF7WHW" 5 (3, 7)) []
    = Some (Ret ["Great"; "Bad battery"], st)
    /\ fetched (trace st)
       = ["https://www.amazon.com/product-reviews/B0BSHF7WHW";
          "https://www.amazon.com/product-reviews/B0BSHF7WHW?pageNumber=2"].
Proof.
  destruct (proj2 (scrape_returns_accumulated_on_absence
                     throttled_on_page2 parser lenient lenient lowest)
              (__init__ "B0BSHF7WHW" 5 (3, 7)) [] page1
              "https://www.amazon.com/product-reviews/B0BSHF7WHW?pageNumber=2"
              5%nat)
    as (st & Hrun & Hfetched).
  - reflexivity.
  - reflexivity.
  - reflexivity.
  - vm_compute. reflexivity.
  - discriminate.
  - reflexivity.
  - simpl. lia.
  - lia.
  - exists st. split; [exact Hrun|exact Hfetched].
Defined.

Lemma loop_advances_only_to_another_page_witness :
  exists st',
    Scraper.loop_body always_self_loop parser lenient lenient lowest
      (enter (__init__ "B0BSHF7WHW" 5 (3, 7)) []) = Break st'
    /\ trace st' = [Get "https://www.amazon.com/product-reviews/B0BSHF7WHW"].
Proof.
  destruct (proj1 (loop_advances_only_to_another_page
                     always_self_loop parser lenient lenient lowest)
              (enter (__init__ "B0BSHF7WHW" 5 (3, 7)) [])
              self_loop
              (Some "https://www.amazon.com/product-reviews/B0BSHF7WHW"))
    as (st' & Hbody & Htrace & _).
  - vm_compute. reflexivity.
  - vm_compute. reflexivity.
  - right. reflexivity.
  - exists st'. split; [exact Hbody|exact Htrace].
Defined.

Lemma reviews_only_grow_witness :
  exists r st',
    scrape_throttled 5
      (extend (__init__ "B0BSHF7WHW" 5 (3, 7)) ["An earlier review"]) []
    = Some (r, st')
    /\ ["An earlier review"] `prefix_of` reviews (self st').
Proof.
  destruct (scrape_total
              throttled_on_page2 parser lenient lenient lowest 5
              (extend (__init__ "B0BSHF7WHW" 5 (3, 7)) ["An earlier review"])
              [] ltac:(simpl; lia))
    as (r & st' & Hrun & _).
  exists r, st'. split; [exact Hrun|].
  exact (proj2 (proj2 (reviews_only_grow
                         throttled_on_page2 parser lenient lenient lowest))
           _ _ _ _ _ Hrun).
Defined.

Lemma init_keeps_supplied_identifier_in_base_url_witness :
  product_id (__init__ "B0BSHF7WHW" 10 (3, 7)) = "B09G9FPHY6"
  /\ base_url (__init__ "B0BSHF7WHW" 10 (3, 7))
     = "https://www.amazon.com/product-reviews/B0BSHF7WHW"
  /\ exists r st rest,
       scrape_unreachable 10 (__init__ "B0BSHF7WHW" 10 (3, 7)) [] = Some (r, st)
       /\ trace st
          = Get "https://www.amazon.com/product-reviews/B0BSHF7WHW" :: rest.
Proof.
  apply (init_keeps_supplied_identifier_in_base_url
           unreachable parser lenient lenient lowest "B0BSHF7WHW" 10 (3, 7) [] 10);
    [lia | simpl; lia].
Defined.

(** C1 as stated does not hold: with the same world and the same
    settings, two supplied identifiers lead to different requests. *)
Lemma supplied_identifier_is_not_inert :
  pages_fetched (scrape_unreachable 10 (__init__ "B0BSHF7WHW" 10 (3, 7)) [])
  = Some ["https://www.amazon.com/product-reviews/B0BSHF7WHW"]
  /\ pages_fetched (scrape_unreachable 10 (__init__ "B09G9FPHY6" 10 (3, 7)) [])
     = Some ["https://www.amazon.com/product-reviews/B09G9FPHY6"]
  /\ ~ (forall pid1 pid2 : string,
          pages_fetched (scrape_unreachable 10 (__init__ pid1 10 (3, 7)) [])
          = pages_fetched (scrape_unreachable 10 (__init__ pid2 10 (3, 7)) [])).
Proof.
  split; [vm_compute; reflexivity|]. split; [vm_compute; reflexivity|].
  intros H. specialize (H "B0BSHF7WHW" "B09G9FPHY6").
  vm_compute in H. discriminate.
Qed.

End Runs.

End CrawlSpec.

(** ** Persistence *)

Module PersistSpec.
Import PyStr PyStrFacts Scraper.

Example block_12 :
  block 12 "ok"
  = "Review 12:" ++ NL ++ "ok" ++ NL ++ NL
    ++ "==================================================" ++ NL ++ NL.
Proof. reflexivity. Qed.

Lemma write_blocks_writable fs name i rs :
  writable (write_blocks fs name i rs) = writable fs.
Proof.
  revert fs i. induction rs as [|r rs IH]; intros fs i; simpl; [reflexivity|].
  now rewrite IH.
Qed.

Lemma write_blocks_other fs name i rs other :
  other <> name ->
  files (write_blocks fs name i rs) !! other = files fs !! other.
Proof.
  intros Hne. revert fs i.
  induction rs as [|r rs IH]; intros fs i; simpl; [reflexivity|].
  rewrite IH. simpl. now rewrite lookup_insert_ne.
Qed.

Lemma write_blocks_lookup fs name i rs content :
  files fs !! name = Some content ->
  files (write_blocks fs name i rs) !! name
  = Some (content
          ++ foldr String.append EmptyString
               (imap (fun k review => block (i + Z.of_nat k) review) rs)).
Proof.
  revert fs i content.
  induction rs as [|r rs IH]; intros fs i content Hc; simpl.
  - now rewrite Hc, append_nil_r.
  - erewrite IH.
    2:{ simpl. rewrite lookup_insert_eq, Hc. reflexivity. }
    simpl. rewrite append_assoc, Z.add_0_r.
    rewrite (imap_ext (fun k review => block (i + 1 + Z.of_nat k) review)
               ((fun k review => block (i + Z.of_nat k) review) ∘ S) rs);
      [reflexivity|].
    intros k x _. simpl. f_equal. lia.
Qed.

(** A block, written out: the heading with the number in decimal, the
    review, an empty line, a rule of fifty [=], an empty line. *)
Lemma block_format (i : Z) (review : string) :
  block i review
  = "Review " ++ NilZero.string_of_int (Z.to_int i) ++ ":"
    ++ String "010" EmptyString ++ review
    ++ String "010" EmptyString ++ String "010" EmptyString
    ++ "=================================================="
    ++ String "010" EmptyString ++ String "010" EmptyString.
Proof. reflexivity. Qed.

Lemma numbered_blocks_format (reviews : list string) :
  numbered_blocks reviews
  = imap (fun k review =>
            "Review " ++ NilZero.string_of_int (Z.to_int (Z.of_nat k + 1)) ++ ":"
            ++ String "010" EmptyString ++ review
            ++ String "010" EmptyString ++ String "010" EmptyString
            ++ "=================================================="
            ++ String "010" EmptyString ++ String "010" EmptyString)
         reviews.
Proof.
  unfold numbered_blocks. apply imap_ext. intros k review _.
  apply block_format.
Qed.

(** C9. When the destination can be opened, saving N reviews leaves at
    the destination, whatever the file held before, exactly N blocks,
    one per review and in the order of the reviews: the [k]-th review
    (from 0) gives the heading ["Review "], [k + 1] in decimal and a
    colon, on a line; the review; an empty line; a rule of fifty [=]; an
    empty line. The other files are as they were. *)
Theorem save_to_file_writes_numbered_blocks self fs filename :
  writable fs filename = true ->
  let nl := String "010" EmptyString in
  let rule := "==================================================" in
  exists fs',
    save_to_file self fs filename = Ret fs'
    /\ files fs' !! filename
       = Some (foldr String.append EmptyString
                 (imap (fun k review =>
                          "Review "
                          ++ NilZero.string_of_int (Z.to_int (Z.of_nat k + 1))
                          ++ ":" ++ nl ++ review ++ nl ++ nl
                          ++ rule ++ nl ++ nl)
                       (reviews self)))
    /\ String.length rule = 50%nat
    /\ (forall other, other <> filename -> files fs' !! other = files fs !! other).
Proof.
  intros Hw nl rule. unfold save_to_file. rewrite Hw.
  eexists. split; [reflexivity|].
  split; [|split; [reflexivity|]].
  - erewrite write_blocks_lookup.
    2:{ simpl. apply lookup_insert_eq. }
    simpl. f_equal.
    transitivity (foldr String.append EmptyString
                    (numbered_blocks (reviews self))).
    + unfold numbered_blocks.
      apply (f_equal (foldr String.append EmptyString)).
      apply imap_ext. intros k x _. f_equal. lia.
    + now rewrite numbered_blocks_format.
  - intros other Hne. rewrite write_blocks_other by exact Hne.
    simpl. now rewrite lookup_insert_ne.
Qed.

Lemma save_to_file_writes_numbered_blocks_witness :
  exists fs',
    save_to_file (extend (__init__ "B0BSHF7WHW" 10 (3, 7)) ["Great"; "Bad battery"])
                 Samples.disk "amazon_reviews.txt" = Ret fs'
    /\ files fs' !! "amazon_reviews.txt"
       = Some "Review 1:
Great

==================================================

Review 2:
Bad battery

==================================================

".
Proof.
  destruct (save_to_file_writes_numbered_blocks
              (extend (__init__ "B0BSHF7WHW" 10 (3, 7)) ["Great"; "Bad battery"])
              Samples.disk "amazon_reviews.txt" eq_refl)
    as (fs' & Hsave & Hfile & _).
  exists fs'. split; [exact Hsave|].
  rewrite Hfile. vm_compute. reflexivity.
Defined.

End PersistSpec.

(** ** More on review extraction *)

Module ExtractFacts.
Import PyStr PyStrFacts Scraper.

Lemma collect_trimmed tag els acc :
  Forall (fun t => strip t = t) acc ->
  Forall (fun t => strip t = t) (collect tag els acc).
Proof.
  intros Hacc. rewrite ExtractSpec.collect_spec.
  apply Forall_app. split; [exact Hacc|].
  apply List.Forall_forall. intros t Ht.
  apply List.filter_In in Ht. destruct Ht as [Hin _].
  apply List.in_map_iff in Hin. destruct Hin as (e & <- & _).
  apply ExtractSpec.element_text_strip.
Qed.

Lemma try_selectors_trimmed sels soup acc :
  Forall (fun t => strip t = t) acc ->
  Forall (fun t => strip t = t) (try_selectors sels soup acc).
Proof.
  intros Hacc. induction sels as [|[t a] sels IH]; [exact Hacc|].
  cbn [try_selectors].
  destruct (find_all soup t a) eqn:E; [exact IH|].
  now apply collect_trimmed.
Qed.

(** X1. A text that extraction returns has no white space at either
    end: trimming it again changes nothing. *)
Theorem extract_texts_trimmed (soup : option node) :
  Forall (fun t => strip t = t) (extract_reviews_from_page soup).
Proof.
  destruct soup as [soup|]; [|constructor].
  unfold extract_reviews_from_page.
  apply try_selectors_trimmed. constructor.
Qed.

Lemma try_selectors_none sels soup acc :
  Forall (fun sel => find_all soup (fst sel) (snd sel) = []) sels ->
  try_selectors sels soup acc = acc.
Proof.
  induction 1 as [|[t a] sels Hnil _ IH]; [reflexivity|].
  cbn [try_selectors]. simpl in Hnil. now rewrite Hnil.
Qed.

Lemma try_selectors_count sels soup :
  (length (try_selectors sels soup []) <= length (descendants soup))%nat.
Proof.
  induction sels as [|[t a] sels IH]; [simpl; lia|].
  cbn [try_selectors].
  destruct (find_all soup t a) as [|e els] eqn:E; [exact IH|].
  rewrite ExtractSpec.collect_spec. cbn [app]. rewrite <- E.
  etransitivity; [apply List.filter_length_le|].
  rewrite length_map. unfold find_all. apply List.filter_length_le.
Qed.

(** X2. A page none of whose elements matches a selector gives no
    review, and no page gives more reviews than it has nodes. *)
Theorem extract_nothing_without_match (soup : node) :
  (Forall (fun sel => find_all soup (fst sel) (snd sel) = []) selectors ->
   extract_reviews_from_page (Some soup) = [])
  /\ (length (extract_reviews_from_page (Some soup))
      <= length (descendants soup))%nat.
Proof.
  split.
  - intros H. unfold extract_reviews_from_page. now apply try_selectors_none.
  - apply try_selectors_count.
Qed.

Lemma extract_nothing_without_match_witness :
  extract_reviews_from_page (Some Samples.next_without_href) = [].
Proof.
  apply (proj1 (extract_nothing_without_match Samples.next_without_href)).
  repeat (constructor; [vm_compute; reflexivity|]). constructor.
Defined.

End ExtractFacts.

(** ** More on next-page discovery *)

Module FindNextFacts.
Import PyStr Scraper Terms.

Section Checks.

Variable _check_bracketed_netloc : string -> bool.
Variable nfkc_check : string -> bool.

Local Abbreviation urljoin := (Scraper.urljoin _check_bracketed_netloc nfkc_check).
Local Abbreviation scan_links := (Scraper.scan_links _check_bracketed_netloc nfkc_check).
Local Abbreviation method2 := (Scraper.method2 _check_bracketed_netloc nfkc_check).
Local Abbreviation find_next_page_url :=
  (Scraper.find_next_page_url _check_bracketed_netloc nfkc_check).

Lemma urlsplit_raises url d e :
  Url.urlsplit _check_bracketed_netloc nfkc_check url d = Raise e ->
  exists msg, e = ValueError msg.
Proof.
  unfold Url.urlsplit. intros H.
  repeat case_match; simplify_eq; eauto.
Qed.

Lemma urlparse_raises url d e :
  Url.urlparse _check_bracketed_netloc nfkc_check url d = Raise e ->
  exists msg, e = ValueError msg.
Proof.
  unfold Url.urlparse.
  destruct (Url.urlsplit _ _ url d) as [r|e'] eqn:E.
  - repeat case_match; discriminate.
  - intros [= <-]. eapply urlsplit_raises. exact E.
Qed.

Lemma urljoin_raises base url e :
  urljoin base url = Raise e -> exists msg, e = ValueError msg.
Proof.
  unfold Scraper.urljoin, Url.urljoin.
  destruct (negb (truthy base)); [discriminate|].
  destruct (negb (truthy url)); [discriminate|].
  destruct (Url.urlparse _ _ base EmptyString) as [b|e1] eqn:Eb.
  2:{ intros [= <-]. eapply urlparse_raises. exact Eb. }
  destruct (Url.urlparse _ _ url (Url.scheme b)) as [u|e2] eqn:Eu.
  2:{ intros [= <-]. eapply urlparse_raises. exact Eu. }
  repeat case_match; discriminate.
Qed.

Lemma scan_links_raises next_links e :
  scan_links next_links = Raise e ->
  (exists msg, e = ValueError msg)
  \/ (e = KeyError "href"
      /\ exists link,
          In link next_links
          /\ reads_next link = true
          /\ get link "href" = None).
Proof.
  induction next_links as [|link rest IH]; [discriminate|].
  cbn [Scraper.scan_links]. fold (reads_next link).
  destruct (reads_next link) eqn:Hn.
  - unfold getitem. destruct (get link "href") as [href|] eqn:Hh.
    + destruct (urljoin ROOT href) as [u|e'] eqn:E; [discriminate|].
      intros [= <-]. left. eapply urljoin_raises. exact E.
    + intros [= <-]. right. split; [reflexivity|].
      exists link. repeat split; [now left|assumption..].
  - intros H. destruct (IH H) as [Hv|(-> & l & Hin & Hl)]; [now left|].
    right. split; [reflexivity|]. exists l. split; [now right|exact Hl].
Qed.

Lemma scan_links_first pre link post :
  Forall (fun l => reads_next l = false) pre ->
  reads_next link = true ->
  scan_links (pre ++ link :: post)
  = match getitem link "href" with
    | Raise e => Raise e
    | Ret href =>
        match urljoin ROOT href with
        | Raise e => Raise e
        | Ret url => Ret (Some url)
        end
    end.
Proof.
  intros Hpre Hlink. induction Hpre as [|l pre Hl _ IH].
  - cbn [app Scraper.scan_links]. fold (reads_next link). now rewrite Hlink.
  - cbn [app Scraper.scan_links]. fold (reads_next l). now rewrite Hl.
Qed.

Lemma method2_raises soup e :
  method2 soup = Raise e ->
  (exists msg, e = ValueError msg)
  \/ (e = KeyError "href"
      /\ exists pagination link,
          find soup "div" [("id", "cm_cr-pagination_bar")] = Some pagination
          /\ In link (find_all pagination "a" [("class", "a-link-normal")])
          /\ reads_next link = true
          /\ get link "href" = None).
Proof.
  unfold Scraper.method2.
  destruct (find soup "div" [("id", "cm_cr-pagination_bar")])
    as [pagination|]; [|discriminate].
  intros H. apply scan_links_raises in H.
  destruct H as [H|(-> & link & H)]; [now left|].
  right. split; [reflexivity|]. now exists pagination, link.
Qed.

(** X3. Next-page discovery raises nothing but [KeyError] for "href"
    and the [ValueError] of [urljoin]. It raises the [KeyError] only
    when method 1 found no link with a non-empty href and the pagination
    bar has a link that reads "Next" and has no href. *)
Theorem find_next_page_url_raises_only (soup : node) (e : exn) :
  find_next_page_url (Some soup) = Raise e ->
  (exists msg, e = ValueError msg)
  \/ (e = KeyError "href"
      /\ (forall next_page_li next_page_a href,
             find soup "li" [("class", "a-last")] = Some next_page_li ->
             find next_page_li "a" [] = Some next_page_a ->
             get next_page_a "href" = Some href ->
             href = EmptyString)
      /\ exists pagination link,
          find soup "div" [("id", "cm_cr-pagination_bar")] = Some pagination
          /\ In link (find_all pagination "a" [("class", "a-link-normal")])
          /\ reads_next link = true
          /\ get link "href" = None).
Proof.
  unfold Scraper.find_next_page_url.
  destruct (find soup "li" [("class", "a-last")]) as [li|] eqn:Hli.
  2:{ intros H. apply method2_raises in H.
      destruct H as [H|[-> H]]; [now left|]. right.
      split; [reflexivity|]. split; [discriminate|exact H]. }
  destruct (find li "a" []) as [a|] eqn:Ha.
  2:{ intros H. apply method2_raises in H.
      destruct H as [H|[-> H]]; [now left|]. right.
      split; [reflexivity|]. split; [|exact H].
      intros ? ? ? [= <-]. rewrite Ha. discriminate. }
  destruct (get a "href") as [href|] eqn:Hh.
  2:{ intros H. apply method2_raises in H.
      destruct H as [H|[-> H]]; [now left|]. right.
      split; [reflexivity|]. split; [|exact H].
      intros ? ? ? [= <-]. rewrite Ha. intros [= <-]. rewrite Hh.
      discriminate. }
  destruct (truthy href) eqn:Ht.
  - destruct (urljoin ROOT href) as [u|e'] eqn:E; [discriminate|].
    intros [= <-]. left. eapply urljoin_raises. exact E.
  - intros H. apply method2_raises in H.
    destruct H as [H|[-> H]]; [now left|]. right.
    split; [reflexivity|]. split; [|exact H].
    intros ? ? ? [= <-]. rewrite Ha. intros [= <-]. rewrite Hh.
    intros [= <-]. now destruct href.
Qed.

(** X4. When method 1 finds no last pagination item, the links of the
    pagination bar are taken in document order: the links before the
    first one that reads "Next" are passed over, with or without an
    href, and that first one decides: the join of the root with its
    href, or [KeyError] when it has none. *)
Theorem find_next_page_url_first_next_link
        (soup pagination link : node) (pre post : list node) :
  find soup "li" [("class", "a-last")] = None ->
  find soup "div" [("id", "cm_cr-pagination_bar")] = Some pagination ->
  find_all pagination "a" [("class", "a-link-normal")]
  = (pre ++ link :: post)%list ->
  Forall (fun l => reads_next l = false) pre ->
  reads_next link = true ->
  find_next_page_url (Some soup)
  = match get link "href" with
    | None => Raise (KeyError "href")
    | Some href =>
        match urljoin ROOT href with
        | Raise e => Raise e
        | Ret url => Ret (Some url)
        end
    end.
Proof.
  intros Hli Hdiv Hall Hpre Hlink.
  unfold Scraper.find_next_page_url, Scraper.method2.
  rewrite Hli, Hdiv, Hall, (scan_links_first pre link post Hpre Hlink).
  unfold getitem. now destruct (get link "href").
Qed.

Lemma find_next_page_url_unmarked (soup : node) :
  find soup "li" [("class", "a-last")] = None ->
  find soup "div" [("id", "cm_cr-pagination_bar")] = None ->
  find_next_page_url (Some soup) = Ret None.
Proof.
  unfold Scraper.find_next_page_url, Scraper.method2.
  intros -> ->. reflexivity.
Qed.

End Checks.

Section Runs.

Import Samples MoreSamples.

Lemma find_next_page_url_raises_only_witness :
  Scraper.find_next_page_url lenient lenient (Some page_without_href)
  = Raise (KeyError "href")
  /\ exists pagination link,
      find page_without_href "div" [("id", "cm_cr-pagination_bar")]
      = Some pagination
      /\ In link (find_all pagination "a" [("class", "a-link-normal")])
      /\ reads_next link = true
      /\ get link "href" = None.
Proof.
  assert (H : Scraper.find_next_page_url lenient lenient (Some page_without_href)
              = Raise (KeyError "href")) by (vm_compute; reflexivity).
  split; [exact H|].
  destruct (find_next_page_url_raises_only lenient lenient _ _ H)
    as [[msg Hmsg]|(_ & _ & Hlink)]; [discriminate|exact Hlink].
Defined.

Lemma find_next_page_url_first_next_link_witness :
  Scraper.find_next_page_url lenient lenient (Some next_without_href)
  = Raise (KeyError "href").
Proof.
  rewrite (find_next_page_url_first_next_link lenient lenient
             next_without_href pagination_without_href next_link_without_href
             [element "a" "class" "a-link-normal"
                [NavigableString "Previous page"]]
             []).
  - reflexivity.
  - vm_compute. reflexivity.
  - vm_compute. reflexivity.
  - vm_compute. reflexivity.
  - constructor; [vm_compute; reflexivity|constructor].
  - vm_compute. reflexivity.
Defined.

End Runs.

End FindNextFacts.

(** ** More on the crawl loop *)

Module CrawlFacts.
Import PyStr Scraper Terms.

Section World.

Variable session_get : nat -> string -> http_result.
Variable html_parser : string -> res node.
Variable _check_bracketed_netloc : string -> bool.
Variable nfkc_check : string -> bool.
Variable uniform : nat -> Z * Z -> res QArith_base.Q.

Local Abbreviation _fetch_page := (Scraper._fetch_page session_get html_parser).
Local Abbreviation find_next_page_url :=
  (Scraper.find_next_page_url _check_bracketed_netloc nfkc_check).
Local Abbreviation loop_body :=
  (Scraper.loop_body session_get html_parser _check_bracketed_netloc nfkc_check
     uniform).
Local Abbreviation while_loop :=
  (Scraper.while_loop session_get html_parser _check_bracketed_netloc nfkc_check
     uniform).
Local Abbreviation scrape :=
  (Scraper.scrape session_get html_parser _check_bracketed_netloc nfkc_check
     uniform).
Local Abbreviation reaches :=
  (Scraper.reaches session_get html_parser _check_bracketed_netloc nfkc_check
     uniform).
Local Abbreviation harvest := (Terms.harvest session_get html_parser).

(** What an iteration does to the reviews and to the trace. *)
Lemma loop_body_adds st :
  let page := _fetch_page (fetch_count (trace st)) (current_url st) in
  match loop_body st with
  | Next st' =>
      reviews (self st')
      = (reviews (self st) ++ extract_reviews_from_page page)%list
      /\ trace st' = (trace st ++ [Get (current_url st); Sleep])%list
      /\ page_num st' = page_num st + 1
      /\ max_pages (self st') = max_pages (self st)
      /\ truthy (current_url st') = true
  | Break st' | Throw _ st' =>
      reviews (self st')
      = (reviews (self st) ++ extract_reviews_from_page page)%list
      /\ trace st' = (trace st ++ [Get (current_url st)])%list
      /\ max_pages (self st') = max_pages (self st)
  end.
Proof.
  unfold Scraper.loop_body, Scraper._random_delay. cbv zeta.
  destruct (_fetch_page (fetch_count (trace st)) (current_url st)) as [soup|].
  2:{ cbn [self trace page_num max_pages extract_reviews_from_page].
      rewrite app_nil_r. repeat split. }
  destruct (find_next_page_url (Some soup)) as [[url|]|e];
    [destruct (truthy url) eqn:Ht;
     destruct (negb (String.eqb url (current_url st)));
     cbn [andb];
     [destruct (uniform _ _) as [delay|];
      [destruct (time_sleep delay)|]|..]|..];
    cbn [self trace page_num max_pages current_url extend reviews];
    rewrite <- ?app_assoc; repeat split; assumption.
Qed.

Lemma fetch_count_app t1 t2 :
  fetch_count (t1 ++ t2) = (fetch_count t1 + fetch_count t2)%nat.
Proof. unfold fetch_count. now rewrite List.filter_app, length_app. Qed.

(** A state the crawl reaches and where the loop ends in one more
    round is where [scrape] ends. *)
Lemma reaches_last self trace0 st out fuel :
  reaches (enter self trace0) st ->
  while_loop 1 st = Some out ->
  (Z.to_nat (max_pages self) <= fuel)%nat ->
  while_loop fuel (enter self trace0) = Some out.
Proof.
  intros Hreach Hstop Hfuel.
  destruct (CrawlSpec.reaches_run _ _ _ _ _ _ _ Hreach _ _ Hstop) as [fuel0 H0].
  destruct (CrawlSpec.while_loop_total session_get html_parser
              _check_bracketed_netloc nfkc_check uniform fuel
              (enter self trace0))
    as (r & st' & Hrun & _).
  { simpl. lia. }
  pose proof (CrawlSpec.while_loop_mono _ _ _ _ _ _ (Nat.max fuel fuel0) _ _ H0
                ltac:(lia)) as H1.
  pose proof (CrawlSpec.while_loop_mono _ _ _ _ _ _ (Nat.max fuel fuel0) _ _ Hrun
                ltac:(lia)) as H2.
  rewrite H1 in H2. injection H2 as ->. exact Hrun.
Qed.

(** A request gives a page exactly when it is answered with status 200
    and the body parses. *)
Lemma fetch_page_only_on_200 (n : nat) (url : string) (soup : node) :
  _fetch_page n url = Some soup
  <-> exists body,
        session_get n url = Response 200 body
        /\ html_parser body = Ret soup.
Proof.
  unfold Scraper._fetch_page. split.
  - destruct (session_get n url) as [code body|]; [|discriminate].
    destruct (code =? 200) eqn:E.
    + apply Z.eqb_eq in E. subst code.
      destruct (html_parser body) as [s|] eqn:Hp; [|discriminate].
      intros [= <-]. now exists body.
    + now destruct ((code =? 503) || (code =? 429)).
  - intros (body & -> & ->). reflexivity.
Qed.

(** X5. With [max_pages] below 1, [scrape] makes no request and returns
    the reviews the object already had. *)
Theorem scrape_without_pages self trace0 fuel :
  max_pages self < 1 ->
  scrape fuel self trace0 = Some (Ret (reviews self), enter self trace0).
Proof.
  intros Hmax. unfold Scraper.scrape.
  assert (Hcond : loop_cond (enter self trace0) = false).
  { unfold loop_cond. cbn [enter page_num Scraper.self].
    apply andb_false_iff. right. apply Z.leb_gt. lia. }
  destruct fuel; simpl; rewrite Hcond; reflexivity.
Qed.

(** X6. When the first page has neither a last pagination item nor a
    pagination bar, the crawl ends after that one request, whatever
    [max_pages] allows, and returns the reviews it had with those of the
    page. *)
Theorem scrape_single_page self trace0 soup fuel :
  1 <= max_pages self ->
  base_url self <> EmptyString ->
  _fetch_page (fetch_count trace0) (base_url self) = Some soup ->
  find soup "li" [("class", "a-last")] = None ->
  find soup "div" [("id", "cm_cr-pagination_bar")] = None ->
  (1 <= fuel)%nat ->
  scrape fuel self trace0
  = Some (Ret (reviews self ++ extract_reviews_from_page (Some soup))%list,
          mkState (extend self (extract_reviews_from_page (Some soup)))
                  (base_url self) 1 (trace0 ++ [Get (base_url self)])).
Proof.
  intros Hmax Hbase Hfetch Hli Hdiv Hfuel.
  apply PyStrFacts.truthy_true in Hbase.
  destruct fuel as [|fuel]; [lia|].
  unfold Scraper.scrape. cbn [Scraper.while_loop].
  assert (Hcond : loop_cond (enter self trace0) = true).
  { unfold loop_cond. cbn [enter current_url page_num Scraper.self].
    rewrite Hbase. apply Z.leb_le. exact Hmax. }
  rewrite Hcond. unfold Scraper.loop_body.
  cbn [enter current_url trace page_num Scraper.self].
  rewrite Hfetch, (FindNextFacts.find_next_page_url_unmarked _ _ _ Hli Hdiv).
  reflexivity.
Qed.

Lemma loop_body_goes_or_dies st soup url :
  _fetch_page (fetch_count (trace st)) (current_url st) = Some soup ->
  find_next_page_url (Some soup) = Ret (Some url) ->
  url <> current_url st ->
  let self' := extend (self st) (extract_reviews_from_page (Some soup)) in
  let trace' := (trace st ++ [Get (current_url st)])%list in
  loop_body st
  = match Scraper._random_delay uniform self' trace' with
    | Ret slept => Next (mkState self' url (page_num st + 1) slept)
    | Raise e => Throw e (mkState self' url (page_num st + 1) trace')
    end.
Proof.
  intros Hfetch Hnext Hne.
  unfold Scraper.loop_body. rewrite Hfetch, Hnext.
  rewrite (FindNextSpec.find_next_page_url_truthy _ _ _ _ Hnext).
  apply String.eqb_neq in Hne. rewrite Hne.
  reflexivity.
Qed.

Lemma loop_body_goes_on st soup url :
  _fetch_page (fetch_count (trace st)) (current_url st) = Some soup ->
  find_next_page_url (Some soup) = Ret (Some url) ->
  url <> current_url st ->
  waits uniform (S (fetch_count (trace st))) (delay_range (self st)) = true ->
  loop_body st
  = Next (mkState (extend (self st) (extract_reviews_from_page (Some soup)))
                  url (page_num st + 1)
                  ((trace st ++ [Get (current_url st)]) ++ [Sleep])).
Proof.
  intros Hfetch Hnext Hne Hsleep.
  rewrite (loop_body_goes_or_dies st soup url Hfetch Hnext Hne).
  rewrite CrawlSpec.random_delay_waits; [reflexivity|].
  rewrite CrawlSpec.fetch_count_get. exact Hsleep.
Qed.

(** X7. Whenever discovery gives a locator other than the current one,
    the iteration takes it up, whatever extraction found on the page,
    even nothing: a locator that discovery returns is never empty. When
    the wait goes through, the iteration goes on to that locator after
    the sleep; when the draw raises, or gives a length on which
    [time.sleep] raises, the iteration raises that exception, the two
    locals and the reviews of the object being updated already. *)
Theorem loop_advances_whatever_was_extracted st soup url :
  _fetch_page (fetch_count (trace st)) (current_url st) = Some soup ->
  find_next_page_url (Some soup) = Ret (Some url) ->
  url <> current_url st ->
  let n := S (fetch_count (trace st)) in
  let self' := extend (self st) (extract_reviews_from_page (Some soup)) in
  let trace' := (trace st ++ [Get (current_url st)])%list in
  url <> EmptyString
  /\ (waits uniform n (delay_range (self st)) = true ->
      loop_body st
      = Next (mkState self' url (page_num st + 1) (trace' ++ [Sleep])))
  /\ (forall e,
         uniform n (delay_range (self st)) = Raise e
         \/ (exists delay, uniform n (delay_range (self st)) = Ret delay
                           /\ time_sleep delay = Raise e) ->
         loop_body st = Throw e (mkState self' url (page_num st + 1) trace')).
Proof.
  intros Hfetch Hnext Hne n self' trace'. split; [|split].
  - apply PyStrFacts.truthy_true.
    eapply FindNextSpec.find_next_page_url_truthy. exact Hnext.
  - now apply loop_body_goes_on.
  - intros e He.
    rewrite (loop_body_goes_or_dies st soup url Hfetch Hnext Hne).
    unfold Scraper._random_delay.
    cbn [extend delay_range]. rewrite CrawlSpec.fetch_count_get.
    fold n. destruct He as [->|(delay & -> & ->)]; reflexivity.
Qed.

(** X8. An exception of discovery leaves [scrape] as it is: when the
    crawl comes to a page on which discovery raises, [scrape] raises the
    same exception, after the reviews of that page went into the
    object, and without another request or sleep. *)
Theorem scrape_lets_discovery_errors_through self trace0 st soup e fuel :
  reaches (enter self trace0) st ->
  loop_cond st = true ->
  _fetch_page (fetch_count (trace st)) (current_url st) = Some soup ->
  find_next_page_url (Some soup) = Raise e ->
  (Z.to_nat (max_pages self) <= fuel)%nat ->
  scrape fuel self trace0
  = Some (Raise e,
          mkState (extend (Scraper.self st)
                          (extract_reviews_from_page (Some soup)))
                  (current_url st) (page_num st)
                  (trace st ++ [Get (current_url st)])).
Proof.
  intros Hreach Hcond Hfetch Hnext Hfuel. unfold Scraper.scrape.
  rewrite (reaches_last self trace0 st
             (Raise e,
              mkState (extend (Scraper.self st)
                              (extract_reviews_from_page (Some soup)))
                      (current_url st) (page_num st)
                      (trace st ++ [Get (current_url st)]))
             fuel Hreach); [reflexivity| |exact Hfuel].
  cbn [Scraper.while_loop]. rewrite Hcond. unfold Scraper.loop_body.
  now rewrite Hfetch, Hnext.
Qed.

Lemma while_loop_paced fuel st r st' :
  while_loop fuel st = Some (r, st') ->
  exists urls,
    (trace st' = (trace st ++ paced urls)%list
     /\ r = Ret tt
     /\ loop_cond st' = false
     /\ page_num st' = page_num st + Z.of_nat (length urls)
     /\ (st' = st /\ urls = []
         \/ truthy (current_url st') = true
            /\ page_num st' - 1 <= max_pages (self st)))
    \/ (exists url, trace st' = (trace st ++ paced urls ++ [Get url])%list).
Proof.
  revert st. induction fuel as [|fuel IH]; intros st; cbn [Scraper.while_loop];
    destruct (loop_cond st) eqn:Hcond; try discriminate.
  1,3: intros [= <- <-]; exists []; left; simpl;
       rewrite app_nil_r, Z.add_0_r; repeat split; auto.
  pose proof (loop_body_adds st) as Hb. cbv zeta in Hb.
  destruct (loop_body st) as [st1|st1|e st1].
  - destruct Hb as (_ & Ht & Hp & Hm & Htruthy). intros H.
    destruct (IH _ H) as [urls [(Htr & -> & Hc & Hpage & Hcase)|[url Htr]]];
      exists (current_url st :: urls); [left|right].
    + rewrite Htr, Ht, <- app_assoc. repeat split; [exact Hc| |].
      * rewrite Hpage, Hp. cbn [length]. lia.
      * right. apply andb_true_iff in Hcond. destruct Hcond as [_ Hle].
        apply Z.leb_le in Hle.
        destruct Hcase as [[-> _]|[Hy Hb']]; [split; [exact Htruthy|lia]|].
        split; [exact Hy|]. rewrite <- Hm. exact Hb'.
    + exists url. rewrite Htr, Ht, <- app_assoc. reflexivity.
  - destruct Hb as (_ & Ht & _). intros [= <- <-].
    exists []. right. now exists (current_url st).
  - destruct Hb as (_ & Ht & _). intros [= <- <-].
    exists []. right. now exists (current_url st).
Qed.

Lemma while_loop_max_pages fuel st r st' :
  while_loop fuel st = Some (r, st') ->
  max_pages (self st') = max_pages (self st).
Proof.
  revert st. induction fuel as [|fuel IH]; intros st; cbn [Scraper.while_loop];
    destruct (loop_cond st); try discriminate; try (now intros [= _ <-]).
  pose proof (loop_body_adds st) as Hb. cbv zeta in Hb.
  destruct (loop_body st) as [st1|st1|e st1].
  - intros H. rewrite (IH _ H). apply Hb.
  - intros [= _ <-]. apply Hb.
  - intros [= _ <-]. apply Hb.
Qed.

(** X9. The events of a crawl are a request, a sleep, a request, a
    sleep, and so on. The crawl ends on a request, or on a sleep that no
    request follows; in the second case [scrape] has returned and has
    made exactly [max_pages] requests. *)
Theorem scrape_sleeps_after_each_advance self trace0 fuel r st :
  scrape fuel self trace0 = Some (r, st) ->
  exists urls,
    (trace st = (trace0 ++ paced urls)%list
     /\ r = Ret (reviews (Scraper.self st))
     /\ (urls = [] \/ Z.of_nat (length urls) = max_pages self))
    \/ (exists url, trace st = (trace0 ++ paced urls ++ [Get url])%list).
Proof.
  unfold Scraper.scrape.
  destruct (while_loop fuel (enter self trace0)) as [[r0 st0]|] eqn:E;
    [|discriminate].
  pose proof (while_loop_max_pages _ _ _ _ E) as Hmax.
  cbn [enter Scraper.self] in Hmax.
  destruct (while_loop_paced _ _ _ _ E)
    as [urls [(Htr & -> & Hc & Hpage & Hcase)|[url Htr]]].
  - intros [= <- <-]. exists urls. left. split; [exact Htr|].
    split; [reflexivity|].
    destruct Hcase as [[_ ->]|[Hy Hb]]; [now left|]. right.
    unfold loop_cond in Hc. rewrite Hy in Hc. cbn [andb] in Hc.
    apply Z.leb_gt in Hc. cbn [enter page_num Scraper.self] in Hpage, Hb.
    lia.
  - intros H. exists urls. right. exists url.
    destruct r0 as [[]|e]; injection H as <- <-; exact Htr.
Qed.

Lemma while_loop_harvest fuel st r st' :
  while_loop fuel st = Some (r, st') ->
  exists added,
    trace st' = (trace st ++ added)%list
    /\ reviews (self st')
       = (reviews (self st)
          ++ harvest (fetch_count (trace st)) (fetched added))%list.
Proof.
  revert st. induction fuel as [|fuel IH]; intros st; cbn [Scraper.while_loop];
    destruct (loop_cond st) eqn:Hcond; try discriminate.
  1,3: intros [= <- <-]; exists []; simpl; now rewrite !app_nil_r.
  pose proof (loop_body_adds st) as Hb. cbv zeta in Hb.
  destruct (loop_body st) as [st1|st1|e st1].
  - destruct Hb as (Hr & Ht & _). intros H.
    destruct (IH _ H) as (added & Htr & Hrev).
    exists ([Get (current_url st); Sleep] ++ added)%list.
    rewrite Htr, Ht, <- app_assoc. split; [reflexivity|].
    rewrite Hrev, Hr, Ht, fetch_count_app, <- app_assoc.
    cbn [app fetched flat_map Terms.harvest fetch_count List.filter is_get length].
    replace (fetch_count (trace st) + 1)%nat with (S (fetch_count (trace st)))
      by lia.
    reflexivity.
  - destruct Hb as (Hr & Ht & _). intros [= <- <-].
    exists [Get (current_url st)]. split; [exact Ht|].
    rewrite Hr. simpl. now rewrite app_nil_r.
  - destruct Hb as (Hr & Ht & _). intros [= <- <-].
    exists [Get (current_url st)]. split; [exact Ht|].
    rewrite Hr. simpl. now rewrite app_nil_r.
Qed.

(** X10. The reviews the object holds after [scrape] are the reviews it
    had, followed by what extraction gives on the answer to each request
    of the crawl, in the order of the requests; nothing is dropped,
    merged or reordered on the way. *)
Theorem scrape_collects_pages_in_order self trace0 fuel r st :
  scrape fuel self trace0 = Some (r, st) ->
  exists added,
    trace st = (trace0 ++ added)%list
    /\ reviews (Scraper.self st)
       = (reviews self ++ harvest (fetch_count trace0) (fetched added))%list.
Proof.
  unfold Scraper.scrape.
  destruct (while_loop fuel (enter self trace0)) as [[r0 st0]|] eqn:E;
    [|discriminate].
  apply while_loop_harvest in E.
  intros H. destruct r0 as [[]|e]; injection H as <- <-; exact E.
Qed.

Lemma extract_clean soup : Forall clean (extract_reviews_from_page soup).
Proof.
  destruct soup as [soup|]; [|constructor].
  unfold extract_reviews_from_page.
  pose proof (ExtractSpec.try_selectors_nonempty selectors soup []
                (List.Forall_nil _)) as H1.
  pose proof (ExtractFacts.try_selectors_trimmed selectors soup []
                (List.Forall_nil _)) as H2.
  pose proof (List.Forall_and H1 H2) as H.
  eapply List.Forall_impl; [|exact H].
  intros t [Hne Heq]. split; [exact Heq|]. now rewrite Heq in Hne.
Qed.

Lemma harvest_clean n urls : Forall clean (harvest n urls).
Proof.
  revert n. induction urls as [|url urls IH]; intros n; [constructor|].
  cbn [Terms.harvest]. apply Forall_app. split; [apply extract_clean|apply IH].
Qed.

(** X11. When every review the object holds is trimmed and not empty,
    so is every review it holds after [scrape], and every review that
    [scrape] returns. *)
Theorem scrape_keeps_reviews_clean self trace0 fuel r st :
  Forall clean (reviews self) ->
  scrape fuel self trace0 = Some (r, st) ->
  Forall clean (reviews (Scraper.self st))
  /\ (forall returned, r = Ret returned -> Forall clean returned).
Proof.
  intros Hclean. unfold Scraper.scrape.
  destruct (while_loop fuel (enter self trace0)) as [[r0 st0]|] eqn:E;
    [|discriminate].
  apply while_loop_harvest in E. destruct E as (added & _ & Hrev).
  assert (H : Forall clean (reviews (Scraper.self st0))).
  { rewrite Hrev. apply Forall_app. split; [exact Hclean|apply harvest_clean]. }
  intros Hr. destruct r0 as [[]|e]; injection Hr as <- <-.
  - split; [exact H|]. now intros ? [= <-].
  - split; [exact H|]. discriminate.
Qed.

Lemma while_loop_two_cycle a b soup_a soup_b :
  a <> b ->
  (forall n, _fetch_page n a = Some soup_a) ->
  (forall n, _fetch_page n b = Some soup_b) ->
  find_next_page_url (Some soup_a) = Ret (Some b) ->
  find_next_page_url (Some soup_b) = Ret (Some a) ->
  forall fuel st,
    (forall n, waits uniform n (delay_range (self st)) = true) ->
    (current_url st = a \/ current_url st = b) ->
    (Z.to_nat (max_pages (self st) + 1 - page_num st) <= fuel)%nat ->
    exists st',
      while_loop fuel st = Some (Ret tt, st')
      /\ trace st'
         = (trace st
            ++ paced (alternate (current_url st)
                        (if String.eqb (current_url st) a then b else a)
                        (Z.to_nat (max_pages (self st) + 1 - page_num st))))%list.
Proof.
  intros Hab Ha Hb Hna Hnb.
  pose proof (FindNextSpec.find_next_page_url_truthy _ _ _ _ Hna) as Htb.
  pose proof (FindNextSpec.find_next_page_url_truthy _ _ _ _ Hnb) as Hta.
  induction fuel as [|fuel IH]; intros st Hsleep Hcur Hfuel;
    cbn [Scraper.while_loop]; unfold loop_cond;
    destruct (page_num st <=? max_pages (self st)) eqn:Hle.
  - apply Z.leb_le in Hle. lia.
  - rewrite andb_false_r. exists st. split; [reflexivity|].
    apply Z.leb_gt in Hle.
    replace (Z.to_nat (max_pages (self st) + 1 - page_num st)) with O by lia.
    simpl. now rewrite app_nil_r.
  - apply Z.leb_le in Hle.
    replace (Z.to_nat (max_pages (self st) + 1 - page_num st))
      with (S (Z.to_nat (max_pages (self st) - page_num st))) in * by lia.
    assert (Hgo : exists soup next,
               truthy (current_url st) = true
               /\ next = (if String.eqb (current_url st) a then b else a)
               /\ next <> current_url st
               /\ (next = a \/ next = b)
               /\ (if String.eqb next a then b else a) = current_url st
               /\ _fetch_page (fetch_count (trace st)) (current_url st)
                  = Some soup
               /\ find_next_page_url (Some soup) = Ret (Some next)).
    { destruct Hcur as [Hc|Hc]; rewrite Hc.
      - exists soup_a, b. rewrite String.eqb_refl.
        apply String.eqb_neq in Hab as Hab'. rewrite String.eqb_sym in Hab'.
        rewrite Hab'. repeat split; auto.
      - exists soup_b, a. apply String.eqb_neq in Hab as Hab'.
        rewrite String.eqb_sym in Hab'. rewrite Hab', String.eqb_refl.
        repeat split; auto. }
    destruct Hgo as (soup & next & Ht & Hnext & Hne & Hin & Hback & Hf & Hn).
    rewrite Ht. cbn [andb].
    rewrite (loop_body_goes_on st soup next Hf Hn Hne (Hsleep _)).
    destruct (IH (mkState (extend (self st)
                                  (extract_reviews_from_page (Some soup)))
                          next (page_num st + 1)
                          ((trace st ++ [Get (current_url st)]) ++ [Sleep])))
      as (st' & Hrun & Htr).
    { exact Hsleep. }
    { exact Hin. }
    { cbn [Scraper.self page_num extend max_pages]. lia. }
    exists st'. split; [exact Hrun|].
    rewrite Htr. cbn [Scraper.self page_num extend max_pages current_url trace].
    rewrite Hback, <- Hnext.
    replace (Z.to_nat (max_pages (self st) + 1 - (page_num st + 1)))
      with (Z.to_nat (max_pages (self st) - page_num st)) by lia.
    cbn [alternate paced flat_map]. rewrite <- !app_assoc. reflexivity.
  - rewrite andb_false_r. exists st. split; [reflexivity|].
    apply Z.leb_gt in Hle.
    replace (Z.to_nat (max_pages (self st) + 1 - page_num st)) with O by lia.
    simpl. now rewrite app_nil_r.
Qed.

(** X12. The guard against a page that leads to itself does not see a
    longer cycle: when the first page leads to a second one and that one
    leads back, and every wait goes through, the crawl
    goes from one to the other until [max_pages] stops it, after exactly
    [max_pages] requests. *)
Theorem scrape_follows_a_cycle_of_two
        self trace0 a b soup_a soup_b fuel :
  base_url self = a ->
  a <> b ->
  (forall n, _fetch_page n a = Some soup_a) ->
  (forall n, _fetch_page n b = Some soup_b) ->
  find_next_page_url (Some soup_a) = Ret (Some b) ->
  find_next_page_url (Some soup_b) = Ret (Some a) ->
  (forall n, waits uniform n (delay_range self) = true) ->
  (Z.to_nat (max_pages self) <= fuel)%nat ->
  exists st,
    scrape fuel self trace0 = Some (Ret (reviews (Scraper.self st)), st)
    /\ trace st
       = (trace0 ++ paced (alternate a b (Z.to_nat (max_pages self))))%list.
Proof.
  intros Hbase Hab Ha Hb Hna Hnb Hsleep Hfuel.
  destruct (while_loop_two_cycle a b soup_a soup_b Hab Ha Hb Hna Hnb
              fuel (enter self trace0))
    as (st & Hrun & Htr).
  { exact Hsleep. }
  { left. exact Hbase. }
  { cbn [enter Scraper.self page_num]. now replace (max_pages self + 1 - 1)
      with (max_pages self) by lia. }
  exists st. unfold Scraper.scrape. rewrite Hrun. split; [reflexivity|].
  rewrite Htr. cbn [enter Scraper.self page_num current_url trace].
  rewrite Hbase, String.eqb_refl.
  now replace (max_pages self + 1 - 1) with (max_pages self) by lia.
Qed.

End World.

Section Runs.

Import Samples MoreSamples.

Local Abbreviation base := "https://www.amazon.com/product-reviews/B0BSHF7WHW".
Local Abbreviation second :=
  "https://www.amazon.com/product-reviews/B0BSHF7WHW?pageNumber=2".
Local Abbreviation third :=
  "https://www.amazon.com/product-reviews/B0BSHF7WHW?pageNumber=3".

Lemma scrape_without_pages_witness :
  Scraper.scrape endless more_parser lenient lenient lowest 3
    (__init__ "B0BSHF7WHW" 0 (3, 7)) []
  = Some (Ret [], enter (__init__ "B0BSHF7WHW" 0 (3, 7)) []).
Proof.
  apply (scrape_without_pages endless more_parser lenient lenient lowest
           (__init__ "B0BSHF7WHW" 0 (3, 7)) [] 3%nat).
  simpl. lia.
Defined.

Lemma scrape_single_page_witness :
  pages_fetched
    (Scraper.scrape bare_page more_parser lenient lenient lowest 10
       (__init__ "B0BSHF7WHW" 10 (3, 7)) [])
  = Some [base].
Proof.
  rewrite (scrape_single_page bare_page more_parser lenient lenient lowest
             (__init__ "B0BSHF7WHW" 10 (3, 7)) []
             (document [NavigableString "Sorry"]) 10%nat).
  - reflexivity.
  - simpl. lia.
  - discriminate.
  - reflexivity.
  - vm_compute. reflexivity.
  - vm_compute. reflexivity.
  - lia.
Defined.

Lemma loop_advances_whatever_was_extracted_witness :
  Scraper.loop_body endless more_parser lenient lenient lowest
    (mkState (__init__ "B0BSHF7WHW" 10 (3, 7)) second 2 [Get base; Sleep])
  = Next (mkState (extend (__init__ "B0BSHF7WHW" 10 (3, 7)) ["Solid"])
                  third 3 [Get base; Sleep; Get second; Sleep])
  /\ Scraper.loop_body endless more_parser lenient lenient lowest
       (mkState (__init__ "B0BSHF7WHW" 10 (-3, -1)) second 2 [Get base; Sleep])
     = Throw (ValueError "sleep length must be non-negative")
             (mkState (extend (__init__ "B0BSHF7WHW" 10 (-3, -1)) ["Solid"])
                      third 3 [Get base; Sleep; Get second]).
Proof.
  split.
  - apply (proj1 (proj2 (loop_advances_whatever_was_extracted
                           endless more_parser lenient lenient lowest
                           (mkState (__init__ "B0BSHF7WHW" 10 (3, 7)) second 2
                                    [Get base; Sleep])
                           page2 third eq_refl ltac:(vm_compute; reflexivity)
                           ltac:(discriminate)))).
    reflexivity.
  - apply (proj2 (proj2 (loop_advances_whatever_was_extracted
                           endless more_parser lenient lenient lowest
                           (mkState (__init__ "B0BSHF7WHW" 10 (-3, -1)) second 2
                                    [Get base; Sleep])
                           page2 third eq_refl ltac:(vm_compute; reflexivity)
                           ltac:(discriminate)))).
    right. eexists. split; reflexivity.
Defined.

Lemma scrape_lets_discovery_errors_through_witness :
  exists st,
    Scraper.scrape broken_pagination more_parser lenient lenient lowest 10
      (__init__ "B0BSHF7WHW" 10 (3, 7)) []
    = Some (Raise (KeyError "href"), st)
    /\ reviews (self st) = ["Nice"]
    /\ trace st = [Get base].
Proof.
  eexists. split.
  - apply (scrape_lets_discovery_errors_through
             broken_pagination more_parser lenient lenient lowest
             (__init__ "B0BSHF7WHW" 10 (3, 7)) []
             (enter (__init__ "B0BSHF7WHW" 10 (3, 7)) [])
             page_without_href (KeyError "href") 10%nat).
    + apply reaches_here.
    + reflexivity.
    + reflexivity.
    + vm_compute. reflexivity.
    + simpl. lia.
  - split; vm_compute; reflexivity.
Defined.

(** Three pages allowed, each leading on: three requests, three sleeps. *)
Lemma scrape_sleeps_after_each_advance_witness :
  exists r st,
    Scraper.scrape endless more_parser lenient lenient lowest 3
      (__init__ "B0BSHF7WHW" 3 (3, 7)) [] = Some (r, st)
    /\ trace st = [Get base; Sleep; Get second; Sleep; Get third; Sleep]
    /\ exists urls,
        (trace st = paced urls
         /\ r = Ret (reviews (self st))
         /\ (urls = [] \/ Z.of_nat (length urls) = 3))
        \/ (exists url, trace st = (paced urls ++ [Get url])%list).
Proof.
  destruct (CrawlSpec.scrape_total endless more_parser lenient lenient lowest 3
              (__init__ "B0BSHF7WHW" 3 (3, 7)) [] ltac:(simpl; lia))
    as (r & st & Hrun & _).
  exists r, st. split; [exact Hrun|]. split.
  - vm_compute in Hrun. now injection Hrun as <- <-.
  - exact (scrape_sleeps_after_each_advance
             endless more_parser lenient lenient lowest _ _ _ _ _ Hrun).
Defined.

Lemma scrape_collects_pages_in_order_witness :
  exists r st,
    Scraper.scrape endless more_parser lenient lenient lowest 3
      (__init__ "B0BSHF7WHW" 3 (3, 7)) [] = Some (r, st)
    /\ reviews (self st) = ["Great"; "Bad battery"; "Solid"; "Great"; "Bad battery"]
    /\ exists added,
        trace st = added
        /\ reviews (self st)
           = Terms.harvest endless more_parser 0 (fetched added).
Proof.
  destruct (CrawlSpec.scrape_total endless more_parser lenient lenient lowest 3
              (__init__ "B0BSHF7WHW" 3 (3, 7)) [] ltac:(simpl; lia))
    as (r & st & Hrun & _).
  exists r, st. split; [exact Hrun|]. split.
  - vm_compute in Hrun. now injection Hrun as <- <-.
  - exact (scrape_collects_pages_in_order
             endless more_parser lenient lenient lowest _ _ _ _ _ Hrun).
Defined.

Lemma scrape_keeps_reviews_clean_witness :
  exists r st,
    Scraper.scrape endless more_parser lenient lenient lowest 3
      (__init__ "B0BSHF7WHW" 3 (3, 7)) [] = Some (r, st)
    /\ Forall clean (reviews (self st)).
Proof.
  destruct (CrawlSpec.scrape_total endless more_parser lenient lenient lowest 3
              (__init__ "B0BSHF7WHW" 3 (3, 7)) [] ltac:(simpl; lia))
    as (r & st & Hrun & _).
  exists r, st. split; [exact Hrun|].
  exact (proj1 (scrape_keeps_reviews_clean
                  endless more_parser lenient lenient lowest
                  (__init__ "B0BSHF7WHW" 3 (3, 7)) [] 3%nat r st
                  (List.Forall_nil _) Hrun)).
Defined.

Lemma scrape_follows_a_cycle_of_two_witness :
  exists st,
    Scraper.scrape two_cycle more_parser lenient lenient lowest 4
      (__init__ "B0BSHF7WHW" 4 (3, 7)) []
    = Some (Ret (reviews (self st)), st)
    /\ trace st
       = [Get base; Sleep; Get second; Sleep; Get base; Sleep; Get second; Sleep].
Proof.
  apply (scrape_follows_a_cycle_of_two two_cycle more_parser lenient lenient lowest
           (__init__ "B0BSHF7WHW" 4 (3, 7)) [] base second page1 self_loop 4%nat).
  - reflexivity.
  - discriminate.
  - intros n. reflexivity.
  - intros n. reflexivity.
  - vm_compute. reflexivity.
  - vm_compute. reflexivity.
  - intros n. reflexivity.
  - simpl. lia.
Defined.

End Runs.

End CrawlFacts.

(** ** More on persistence *)

Module PersistFacts.
Import PyStr PyStrFacts Scraper.

Lemma write_blocks_closed fs name i rs content :
  files fs !! name = Some content ->
  write_blocks fs name i rs
  = mkFs (<[name := content
                    ++ foldr String.append EmptyString
                         (imap (fun k review => block (i + Z.of_nat k) review) rs)]>
            (files fs))
         (writable fs).
Proof.
  revert fs i content.
  induction rs as [|r rs IH]; intros fs i content Hc.
  - cbn [write_blocks imap foldr]. rewrite append_nil_r.
    destruct fs as [m w]. cbn [files writable] in *.
    now rewrite insert_id.
  - cbn [write_blocks].
    rewrite (IH _ _ (content ++ block i r)).
    2:{ cbn [write files]. rewrite lookup_insert_eq, Hc. reflexivity. }
    cbn [write files writable]. rewrite insert_insert_eq.
    cbn [imap foldr]. rewrite append_assoc, Z.add_0_r.
    rewrite (imap_ext (fun k review => block (i + 1 + Z.of_nat k) review)
               ((fun k review => block (i + Z.of_nat k) review) ∘ S) rs);
      [reflexivity|].
    intros k x _. simpl. f_equal. lia.
Qed.

(** The whole of [save_to_file], when the file can be opened. *)
Lemma save_to_file_closed self fs filename :
  writable fs filename = true ->
  save_to_file self fs filename
  = Ret (mkFs (<[filename := foldr String.append EmptyString
                               (numbered_blocks (reviews self))]>
                 (files fs))
              (writable fs)).
Proof.
  intros Hw. unfold save_to_file. rewrite Hw.
  rewrite (write_blocks_closed _ _ _ _ EmptyString).
  2:{ cbn [files]. apply lookup_insert_eq. }
  cbn [files writable]. rewrite insert_insert_eq. do 2 f_equal.
  unfold numbered_blocks.
  change (EmptyString ++ ?x) with x.
  rewrite (imap_ext (fun k review => block (1 + Z.of_nat k) review)
             (fun k review => block (Z.of_nat k + 1) review)); [reflexivity|].
  intros k x _. f_equal. lia.
Qed.

(** X13. Saving is not appending: saving the same reviews again, to
    the files the first save left, leaves them as they are. *)
Theorem save_to_file_twice self fs filename fs1 :
  save_to_file self fs filename = Ret fs1 ->
  save_to_file self fs1 filename = Ret fs1.
Proof.
  destruct (writable fs filename) eqn:Hw.
  2:{ unfold save_to_file. rewrite Hw. discriminate. }
  rewrite (save_to_file_closed self fs filename Hw). intros [= <-].
  rewrite save_to_file_closed by exact Hw.
  cbn [files writable]. now rewrite insert_insert_eq.
Qed.

(** X14. Saving an object without reviews empties the destination:
    what the file held before is gone and no block is written. *)
Theorem save_to_file_without_reviews self fs filename :
  reviews self = [] ->
  writable fs filename = true ->
  exists fs',
    save_to_file self fs filename = Ret fs'
    /\ files fs' !! filename = Some EmptyString.
Proof.
  intros Hnil Hw. rewrite (save_to_file_closed self fs filename Hw), Hnil.
  eexists. split; [reflexivity|]. cbn [files]. apply lookup_insert_eq.
Qed.

Lemma foldr_append_app (l1 l2 : list string) :
  foldr String.append EmptyString (l1 ++ l2)
  = foldr String.append EmptyString l1 ++ foldr String.append EmptyString l2.
Proof.
  induction l1 as [|x l1 IH]; [reflexivity|].
  cbn [app foldr]. now rewrite IH, append_assoc.
Qed.

(** X15. Saving after more reviews came in keeps the transcript of the
    earlier ones as it was and continues it: the new file is the old one
    followed by the blocks of the new reviews, numbered on from where the
    old ones stopped. *)
Theorem save_to_file_continues self fs fs' filename page_reviews :
  writable fs filename = true ->
  writable fs' filename = true ->
  exists fs1 fs2 old,
    save_to_file self fs filename = Ret fs1
    /\ save_to_file (extend self page_reviews) fs' filename = Ret fs2
    /\ files fs1 !! filename = Some old
    /\ files fs2 !! filename
       = Some (old
               ++ foldr String.append EmptyString
                    (imap (fun k review =>
                             block (Z.of_nat (length (reviews self) + k) + 1)
                                   review)
                          page_reviews)).
Proof.
  intros Hw Hw'.
  rewrite (save_to_file_closed self fs filename Hw).
  rewrite (save_to_file_closed (extend self page_reviews) fs' filename Hw').
  eexists _, _, _. split; [reflexivity|]. split; [reflexivity|].
  cbn [files]. rewrite !lookup_insert_eq. split; [reflexivity|].
  f_equal. unfold numbered_blocks. cbn [extend reviews].
  rewrite imap_app, foldr_append_app. reflexivity.
Qed.

Lemma two_blocks_as_one (a b : string) :
  block 1 a ++ block 2 b
  = block 1 (a ++ NL ++ NL ++ PyStr.repeat "=" 50 ++ NL ++ NL
               ++ "Review 2:" ++ NL ++ b).
Proof.
  unfold block. rewrite !append_assoc. reflexivity.
Qed.

(** X16. The transcript does not tell the reviews apart: the text of a
    review is written as it is, so one review that holds the separator
    and the heading of a second block is saved as the very file that two
    reviews give. *)
Theorem save_to_file_is_ambiguous self self' fs filename (a b : string) :
  reviews self = [a; b] ->
  reviews self'
  = [a ++ NL ++ NL ++ PyStr.repeat "=" 50 ++ NL ++ NL
       ++ "Review 2:" ++ NL ++ b] ->
  save_to_file self fs filename = save_to_file self' fs filename.
Proof.
  intros H H'. unfold save_to_file.
  destruct (writable fs filename) eqn:Hw; [|reflexivity].
  pose proof (save_to_file_closed self fs filename Hw) as E.
  pose proof (save_to_file_closed self' fs filename Hw) as E'.
  unfold save_to_file in E, E'. rewrite Hw in E, E'. rewrite E, E'.
  rewrite H, H'. do 3 f_equal.
  change (block 1 a ++ (block 2 b ++ EmptyString)
          = block 1 (a ++ NL ++ NL ++ PyStr.repeat "=" 50 ++ NL ++ NL
                       ++ "Review 2:" ++ NL ++ b) ++ EmptyString).
  rewrite !append_nil_r. apply two_blocks_as_one.
Qed.

Lemma save_to_file_twice_witness :
  exists fs1,
    save_to_file (extend (__init__ "B0BSHF7WHW" 10 (3, 7)) ["Great"])
                 Samples.disk "amazon_reviews.txt" = Ret fs1
    /\ save_to_file (extend (__init__ "B0BSHF7WHW" 10 (3, 7)) ["Great"])
                    fs1 "amazon_reviews.txt" = Ret fs1.
Proof.
  eexists. split; [reflexivity|].
  apply (save_to_file_twice _ Samples.disk). reflexivity.
Defined.

Lemma save_to_file_without_reviews_witness :
  exists fs',
    save_to_file (__init__ "B0BSHF7WHW" 10 (3, 7)) Samples.disk
                 "amazon_reviews.txt" = Ret fs'
    /\ files Samples.disk !! "amazon_reviews.txt" = Some "stale contents"
    /\ files fs' !! "amazon_reviews.txt" = Some EmptyString.
Proof.
  destruct (save_to_file_without_reviews
              (__init__ "B0BSHF7WHW" 10 (3, 7)) Samples.disk
              "amazon_reviews.txt" eq_refl eq_refl)
    as (fs' & Hsave & Hfile).
  exists fs'. split; [exact Hsave|]. split; [vm_compute; reflexivity|exact Hfile].
Defined.

Lemma save_to_file_continues_witness :
  exists fs1 fs2 old,
    save_to_file (extend (__init__ "B0BSHF7WHW" 10 (3, 7)) ["Great"])
                 Samples.disk "amazon_reviews.txt" = Ret fs1
    /\ save_to_file
         (extend (extend (__init__ "B0BSHF7WHW" 10 (3, 7)) ["Great"]) ["Solid"])
         Samples.disk "amazon_reviews.txt" = Ret fs2
    /\ files fs1 !! "amazon_reviews.txt" = Some old
    /\ files fs2 !! "amazon_reviews.txt" = Some (old ++ block 2 "Solid").
Proof.
  destruct (save_to_file_continues
              (extend (__init__ "B0BSHF7WHW" 10 (3, 7)) ["Great"])
              Samples.disk Samples.disk "amazon_reviews.txt" ["Solid"]
              eq_refl eq_refl)
    as (fs1 & fs2 & old & H1 & H2 & H3 & H4).
  exists fs1, fs2, old. split; [exact H1|]. split; [exact H2|].
  split; [exact H3|]. rewrite H4. reflexivity.
Defined.

Lemma save_to_file_is_ambiguous_witness :
  save_to_file (extend (__init__ "B0BSHF7WHW" 10 (3, 7)) ["Great"; "Solid"])
               Samples.disk "amazon_reviews.txt"
  = save_to_file
      (extend (__init__ "B0BSHF7WHW" 10 (3, 7))
         ["Great" ++ NL ++ NL ++ PyStr.repeat "=" 50 ++ NL ++ NL
            ++ "Review 2:" ++ NL ++ "Solid"])
      Samples.disk "amazon_reviews.txt".
Proof.
  apply (save_to_file_is_ambiguous _ _ Samples.disk "amazon_reviews.txt"
           "Great" "Solid"); reflexivity.
Defined.

End PersistFacts.

(** ** The script as a whole *)

Module MainSpec.
Import PyStr PyStrFacts Scraper Terms Main.

Lemma slice_to_length n s :
  String.length (slice_to n s) = Nat.min n (String.length s).
Proof.
  revert s. induction n as [|n IH]; intros [|c s]; simpl; try reflexivity.
  now rewrite IH.
Qed.

Lemma slice_to_short n s :
  (String.length s <= n)%nat -> slice_to n s = s.
Proof.
  revert s. induction n as [|n IH]; intros [|c s]; simpl; try reflexivity.
  - lia.
  - intros H. rewrite IH; [reflexivity|lia].
Qed.

Lemma print_calls_length i rs : length (print_calls i rs) = length rs.
Proof.
  revert i. induction rs as [|r rs IH]; intros i; simpl; [reflexivity|].
  now rewrite IH.
Qed.

Lemma print_calls_lookup i rs k r :
  rs !! k = Some r ->
  print_calls i rs !! k
  = Some ("Review " ++ of_int (i + Z.of_nat k) ++ ": "
            ++ slice_to 100 r ++ "...").
Proof.
  revert i k. induction rs as [|x rs IH]; intros i k; [discriminate|].
  destruct k as [|k].
  - intros [= ->]. cbn [print_calls]. now rewrite Z.add_0_r.
  - intros H. change (print_calls (i + 1) rs !! k
                      = Some ("Review " ++ of_int (i + Z.of_nat (S k)) ++ ": "
                                ++ slice_to 100 r ++ "...")).
    rewrite (IH (i + 1) k H).
    now replace (i + 1 + Z.of_nat k) with (i + Z.of_nat (S k)) by lia.
Qed.

(** X17. The preview is one call of [print] for each of the first
    five reviews and no other call; the call for a review prints its
    number from 1, its first hundred characters and three dots, also
    when the review is shorter and was printed whole. *)
Theorem print_preview_calls (reviews : list string) :
  length (print_preview reviews) = Nat.min 5 (length reviews)
  /\ (forall k review,
         (k < 5)%nat ->
         reviews !! k = Some review ->
         print_preview reviews !! k
         = Some ("Review " ++ of_int (Z.of_nat k + 1) ++ ": "
                   ++ slice_to 100 review ++ "...")
         /\ String.length (slice_to 100 review)
            = Nat.min 100 (String.length review)
         /\ ((String.length review <= 100)%nat -> slice_to 100 review = review)).
Proof.
  unfold print_preview. split.
  - rewrite print_calls_length. apply length_take.
  - intros k review Hk Hr. split; [|split].
    + rewrite (print_calls_lookup 1 (take 5 reviews) k review).
      * now replace (1 + Z.of_nat k) with (Z.of_nat k + 1) by lia.
      * rewrite lookup_take_lt by exact Hk. exact Hr.
    + apply slice_to_length.
    + apply slice_to_short.
Qed.

Lemma print_preview_calls_witness :
  print_preview ["a"; "b"; "c"; "d"; "e"; "f"; "g"] !! 4%nat
  = Some "Review 5: e...".
Proof.
  rewrite (proj1 (proj2 (print_preview_calls ["a"; "b"; "c"; "d"; "e"; "f"; "g"])
                   4%nat "e" ltac:(lia) eq_refl)).
  reflexivity.
Defined.

Section World.

Variable session_get : nat -> string -> http_result.
Variable html_parser : string -> res node.
Variable _check_bracketed_netloc : string -> bool.
Variable nfkc_check : string -> bool.
Variable uniform : nat -> Z * Z -> res QArith_base.Q.

Local Abbreviation find_next_page_url :=
  (Scraper.find_next_page_url _check_bracketed_netloc nfkc_check).
Local Abbreviation loop_body :=
  (Scraper.loop_body session_get html_parser _check_bracketed_netloc nfkc_check
     uniform).
Local Abbreviation while_loop :=
  (Scraper.while_loop session_get html_parser _check_bracketed_netloc nfkc_check
     uniform).
Local Abbreviation scrape :=
  (Scraper.scrape session_get html_parser _check_bracketed_netloc nfkc_check
     uniform).
Local Abbreviation main :=
  (Main.main session_get html_parser _check_bracketed_netloc nfkc_check
     uniform).

Lemma find_next_page_url_raises_kinds soup e :
  find_next_page_url soup = Raise e ->
  e = KeyError "href" \/ exists msg, e = ValueError msg.
Proof.
  destruct soup as [soup|]; [|discriminate].
  assert (M : Scraper.method2 _check_bracketed_netloc nfkc_check soup = Raise e ->
              e = KeyError "href" \/ exists msg, e = ValueError msg).
  { intros H. apply FindNextFacts.method2_raises in H.
    destruct H as [H|[-> _]]; [now right|now left]. }
  unfold Scraper.find_next_page_url.
  repeat case_match; try exact M; try discriminate.
  intros [= <-]. right. eapply FindNextFacts.urljoin_raises. eassumption.
Qed.

Lemma loop_body_keeps_range st st' :
  loop_body st = Next st' -> delay_range (self st') = delay_range (self st).
Proof.
  unfold Scraper.loop_body.
  destruct (Scraper._fetch_page _ _ _ _) as [soup|]; [|discriminate].
  destruct (find_next_page_url (Some soup)) as [[url|]|e2]; try discriminate.
  destruct (_ && _); [|discriminate].
  destruct (Scraper._random_delay _ _ _); [|discriminate].
  now intros [= <-].
Qed.

Lemma while_loop_raises fuel st e st' :
  while_loop fuel st = Some (Raise e, st') ->
  (e = KeyError "href" \/ exists msg, e = ValueError msg)
  \/ exists n,
       uniform n (delay_range (self st)) = Raise e
       \/ exists delay, uniform n (delay_range (self st)) = Ret delay
                        /\ time_sleep delay = Raise e.
Proof.
  revert st. induction fuel as [|fuel IH]; intros st; cbn [Scraper.while_loop];
    destruct (loop_cond st); try discriminate.
  destruct (loop_body st) as [st1|st1|e1 st1] eqn:Hb.
  - intros H. rewrite <- (loop_body_keeps_range _ _ Hb). now apply IH.
  - discriminate.
  - intros [= -> ->]. revert Hb.
    unfold Scraper.loop_body, Scraper._random_delay.
    destruct (Scraper._fetch_page _ _ _ _) as [soup|]; [|discriminate].
    destruct (find_next_page_url (Some soup)) as [[url|]|e2] eqn:Hn.
    + destruct (_ && _); [|discriminate].
      cbn [extend delay_range].
      destruct (uniform _ _) as [delay|e2] eqn:Hu.
      * destruct (time_sleep delay) as [[]|e2] eqn:Hs; [discriminate|].
        intros [= <- _]. right. eauto.
      * intros [= <- _]. right. eauto.
    + discriminate.
    + intros [= -> _]. left. eapply find_next_page_url_raises_kinds. exact Hn.
Qed.

(** X18. Whatever the site answers, the script ends; it makes at least
    one request and at most ten, and its first request is for the
    product the script names, B0BSHF7WHW, not for the identifier
    hard-coded in the constructor. *)
Theorem main_requests fs fuel :
  (10 <= fuel)%nat ->
  exists run rest,
    main fuel fs = Some run
    /\ events run
       = Get "https://www.amazon.com/product-reviews/B0BSHF7WHW" :: rest
    /\ (fetch_count (events run) <= 10)%nat.
Proof.
  intros Hfuel. unfold Main.main.
  destruct (CrawlSpec.scrape_total session_get html_parser
              _check_bracketed_netloc nfkc_check uniform fuel
              (__init__ "B0BSHF7WHW" 10 (3, 7)) [] ltac:(simpl; lia))
    as (r & st & Hrun & Hcount).
  rewrite Hrun. simpl in Hcount.
  assert (Hfirst : exists rest,
             trace st
             = Get "https://www.amazon.com/product-reviews/B0BSHF7WHW" :: rest).
  { revert Hrun. unfold Scraper.scrape.
    destruct (Scraper.while_loop _ _ _ _ _ fuel _) as [[r0 st0]|] eqn:E;
      [|discriminate].
    eapply CrawlSpec.while_loop_first_fetch in E; [|reflexivity].
    destruct E as [rest E]. intros H.
    exists rest. destruct r0 as [[]|e]; injection H as <- <-; exact E. }
  destruct Hfirst as [rest Hfirst].
  destruct r as [reviews|e].
  - destruct (save_to_file (self st) fs "amazon_reviews.txt");
      eexists _, rest; (split; [reflexivity|]); split; assumption.
  - eexists _, rest. split; [reflexivity|]. split; assumption.
Qed.

(** X19. When the script ends without an exception, the destination
    holds a block for every review that [scrape] returned, and not only
    for the five it printed: for the [k]-th review (from 0) the heading
    ["Review "], [k + 1] in decimal and a colon, on a line; the review; an
    empty line; a rule of fifty [=]; an empty line. What it printed is
    the preview of those reviews, and the other files are as they
    were. *)
Theorem main_saves_all_reviews fs fuel run :
  main fuel fs = Some run ->
  outcome run = Ret tt ->
  let nl := String "010" EmptyString in
  let rule := "==================================================" in
  exists st,
    scrape fuel (__init__ "B0BSHF7WHW" 10 (3, 7)) []
    = Some (Ret (reviews (self st)), st)
    /\ stdout run = print_preview (reviews (self st))
    /\ files (disk run) !! "amazon_reviews.txt"
       = Some (foldr String.append EmptyString
                 (imap (fun k review =>
                          "Review "
                          ++ NilZero.string_of_int (Z.to_int (Z.of_nat k + 1))
                          ++ ":" ++ nl ++ review ++ nl ++ nl
                          ++ rule ++ nl ++ nl)
                       (reviews (self st))))
    /\ (forall other, other <> "amazon_reviews.txt" ->
                      files (disk run) !! other = files fs !! other).
Proof.
  unfold Main.main, Scraper.scrape.
  destruct (Scraper.while_loop _ _ _ _ _ fuel _) as [[[[]|e] st]|];
    try discriminate.
  2:{ intros [= <-]. discriminate. }
  destruct (writable fs "amazon_reviews.txt") eqn:Hw.
  - rewrite (PersistFacts.save_to_file_closed _ _ _ Hw).
    intros [= <-] _. cbv zeta. exists st. cbn [stdout disk files].
    split; [reflexivity|]. split; [reflexivity|].
    split.
    + rewrite lookup_insert_eq, PersistSpec.numbered_blocks_format.
      reflexivity.
    + intros other Hne. now rewrite lookup_insert_ne.
  - unfold save_to_file. rewrite Hw. intros [= <-]. discriminate.
Qed.

(** X20. When [scrape] raises, the script dies of that exception
    before it prints or opens a file: nothing was printed, no file has
    changed, and the reviews collected so far are not saved. Such an
    exception comes from discovery, and is the [KeyError] for "href" or
    a [ValueError], or from a wait between two pages: the draw from
    (3, 7) raised it, or [time.sleep] did on the length drawn. *)
Theorem main_dies_with_the_crawl fs fuel e st :
  scrape fuel (__init__ "B0BSHF7WHW" 10 (3, 7)) [] = Some (Raise e, st) ->
  main fuel fs = Some (mkRun [] fs (trace st) (Raise e))
  /\ ((e = KeyError "href" \/ exists msg, e = ValueError msg)
      \/ exists n,
           uniform n (3, 7) = Raise e
           \/ exists delay, uniform n (3, 7) = Ret delay
                            /\ time_sleep delay = Raise e).
Proof.
  intros H. split.
  - unfold Main.main. now rewrite H.
  - revert H. unfold Scraper.scrape.
    destruct (Scraper.while_loop _ _ _ _ _ fuel _) as [[[[]|e0] st0]|] eqn:E;
      try discriminate.
    intros [= <- _]. apply while_loop_raises in E. exact E.
Qed.

End World.

Section Runs.

Import Samples MoreSamples.

Lemma main_requests_witness :
  exists run rest,
    Main.main endless more_parser lenient lenient lowest 10 Samples.disk = Some run
    /\ events run
       = Get "https://www.amazon.com/product-reviews/B0BSHF7WHW" :: rest
    /\ (fetch_count (events run) <= 10)%nat.
Proof.
  apply (main_requests endless more_parser lenient lenient lowest Samples.disk 10%nat). lia.
Defined.

(** The site gives one page of two reviews and throttles the next. *)
Lemma main_saves_all_reviews_witness :
  exists run,
    Main.main throttled_on_page2 parser lenient lenient lowest 10 Samples.disk
    = Some run
    /\ stdout run = ["Review 1: Great..."; "Review 2: Bad battery..."]
    /\ files (Main.disk run) !! "amazon_reviews.txt"
       = Some "Review 1:
Great

==================================================

Review 2:
Bad battery

==================================================

"
    /\ (forall other, other <> "amazon_reviews.txt" ->
                      files (Main.disk run) !! other
                      = files Samples.disk !! other).
Proof.
  let v := eval vm_compute in
             (Main.main throttled_on_page2 parser lenient lenient lowest 10
                Samples.disk) in
  match v with
  | Some ?run =>
      assert (H : Main.main throttled_on_page2 parser lenient lenient lowest 10
                    Samples.disk
                  = Some run) by (vm_compute; reflexivity);
      exists run
  end.
  split; [exact H|]. split; [reflexivity|].
  pose proof (main_saves_all_reviews throttled_on_page2 parser lenient lenient
                lowest Samples.disk 10%nat _ H eq_refl) as T.
  cbv zeta in T. destruct T as (st & Hrun & _ & Hfile & Hrest).
  split; [|exact Hrest].
  rewrite Hfile. revert Hrun. vm_compute. intros [= <-]. reflexivity.
Defined.

(** The first page has a "Next" link without an href. *)
Lemma main_dies_with_the_crawl_witness :
  exists st,
    Scraper.scrape broken_pagination more_parser lenient lenient lowest 10
      (__init__ "B0BSHF7WHW" 10 (3, 7)) []
    = Some (Raise (KeyError "href"), st)
    /\ reviews (self st) = ["Nice"]
    /\ Main.main broken_pagination more_parser lenient lenient lowest 10
         Samples.disk
       = Some (mkRun [] Samples.disk
                 [Get "https://www.amazon.com/product-reviews/B0BSHF7WHW"]
                 (Raise (KeyError "href"))).
Proof.
  let v := eval vm_compute in
             (Scraper.scrape broken_pagination more_parser lenient lenient
                lowest 10 (__init__ "B0BSHF7WHW" 10 (3, 7)) []) in
  match v with
  | Some (_, ?st) =>
      assert (H : Scraper.scrape broken_pagination more_parser lenient lenient
                    lowest 10 (__init__ "B0BSHF7WHW" 10 (3, 7)) []
                  = Some (Raise (KeyError "href"), st))
        by (vm_compute; reflexivity);
      exists st
  end.
  split; [exact H|]. split; [reflexivity|].
  exact (proj1 (main_dies_with_the_crawl broken_pagination more_parser lenient
                  lenient lowest Samples.disk 10%nat _ _ H)).
Defined.

End Runs.

End MainSpec.
